(** * Roam Research scripts: request client and block-tree fetcher

    A shallow embedding of the parts of [read-content.js], [create-pages.js]
    and [write-content.js] that carry a contract:

    - [makeHttpsRequest] / [makeRoamRequest]: one HTTPS request, one redirect
      hop, classification of the response by status code;
    - [fetchChildren] / [buildBlockTree]: the depth-bounded, order-sorted
      block tree of a page;
    - [getTodayRoamTitle] / [getOrdinalSuffix]: the daily-note title.

    The remote service, Node's [https.request], [JSON.parse] and [new URL]
    are the environment: they are parameters of the model, and concrete
    instances of them are only used to run the code on examples. *)

From Stdlib Require Import ZArith List String Ascii Lia.
From Stdlib Require Import Sorting.Sorted Sorting.Permutation.
From stdpp Require Import base option list sorting strings pretty gmap.

Import ListNotations.
Local Open Scope string_scope.
Local Open Scope list_scope.
Local Open Scope Z_scope.
Set Warnings "-register-all".

(* ===================================================================== *)
(** * Part I: the programs                                                *)
(* ===================================================================== *)

(** ** Awaited computations

    An [async] function that talks to the remote service is a function of
    the state of the world: it either fulfils with a value or rejects with
    an error, and leaves the world in a new state.  [await] on a rejected
    promise throws, which inside an [async] function rejects the caller's
    promise in turn: that is [bind]. *)
Module Async.

Inductive Settled (E A : Type) : Type :=
| Fulfilled (value : A)
| Rejected (reason : E).
Arguments Fulfilled {E A} value.
Arguments Rejected {E A} reason.

Definition t (W E A : Type) : Type := W -> Settled E A * W.

Definition ret {W E A} (a : A) : t W E A := fun w => (Fulfilled a, w).

Definition bind {W E A B} (m : t W E A) (k : A -> t W E B) : t W E B :=
  fun w =>
    match m w with
    | (Fulfilled a, w') => k a w'
    | (Rejected e, w') => (Rejected e, w')
    end.

End Async.

Import Async.

Declare Scope async_scope.
Delimit Scope async_scope with async.
Notation "x <- 'await' m ;; k" := (Async.bind m (fun x => k))
  (at level 100, m at next level, right associativity) : async_scope.
Local Open Scope async_scope.

(** ** Built-ins of the platform *)
Module Platform.

(** [Array.prototype.sort(compareFn)] puts [a] before [b] when
    [compareFn(a, b) < 0] and keeps elements that compare equal in the
    sequence they came in (the sort is stable).  The model is the stable
    insertion sort: each element goes in front of the first element of the
    already sorted rest that it does not have to follow. *)
Fixpoint sortedInsert {A} (compareFn : A -> A -> Z) (x : A) (l : list A) : list A :=
  match l with
  | [] => [x]
  | y :: l' =>
      if compareFn x y <=? 0 then x :: y :: l'
      else y :: sortedInsert compareFn x l'
  end.

Definition Array_sort {A} (compareFn : A -> A -> Z) (l : list A) : list A :=
  fold_right (sortedInsert compareFn) [] l.

(** JSON values, as [JSON.parse] builds them.  Numbers are kept to the
    integers; the code never computes with a number of a response body. *)
Inductive JSON : Type :=
| JNull
| JBool (b : bool)
| JNumber (n : Z)
| JString (s : string)
| JArray (items : list JSON)
| JObject (members : list (string * JSON)).

(** A string of the program is kept as the bytes of its UTF-8 form, and a
    [Buffer] is the bytes it holds, written as a string literal too. *)
Definition Buffer : Type := string.

Definition byteValue (b : ascii) : Z := Z.of_nat (nat_of_ascii b).

(** U+FFFD, the replacement character. *)
Definition replacementCharacter : string :=
  String "239" (String "191" (String "189" EmptyString)).

(** What the first byte of a character announces: a character of one
    byte (or a byte that can start none, which is replaced), or the bytes
    seen so far, how many are still needed, and the range the next one has
    to lie in. *)
Inductive Lead : Type :=
| Complete (text : string)
| Expects (seen : string) (needed : nat) (lower upper : Z).

Definition leadByte (b : ascii) : Lead :=
  let n := byteValue b in
  if n <=? 127 then Complete (String b EmptyString)
  else if (194 <=? n) && (n <=? 223) then Expects (String b EmptyString) 1 128 191
  else if (224 <=? n) && (n <=? 239) then
    Expects (String b EmptyString) 2
      (if n =? 224 then 160 else 128) (if n =? 237 then 159 else 191)
  else if (240 <=? n) && (n <=? 244) then
    Expects (String b EmptyString) 3
      (if n =? 240 then 144 else 128) (if n =? 244 then 143 else 191)
  else Complete replacementCharacter.

(** The UTF-8 decoder: a well-formed character is kept; each longest
    ill-formed run of bytes, also a character cut off by the end of the
    buffer, becomes one U+FFFD.  A byte that cannot continue the character
    under way is read again as a first byte. *)
Fixpoint utf8Decode (seen : string) (needed : nat) (lower upper : Z)
    (bytes : string) : string :=
  match bytes with
  | EmptyString =>
      match needed with
      | O => EmptyString
      | S _ => replacementCharacter
      end
  | String b rest =>
      let next (lead : Lead) : string :=
        match lead with
        | Complete text => text +:+ utf8Decode EmptyString 0 128 191 rest
        | Expects seen' needed' lower' upper' =>
            utf8Decode seen' needed' lower' upper' rest
        end in
      match needed with
      | O => next (leadByte b)
      | S needed' =>
          if (lower <=? byteValue b) && (byteValue b <=? upper) then
            match needed' with
            | O => next (Complete (seen +:+ String b EmptyString))
            | S _ => utf8Decode (seen +:+ String b EmptyString) needed' 128 191 rest
            end
          else replacementCharacter +:+ next (leadByte b)
      end
  end.

(** [buffer.toString()], which is what [data += chunk] makes of a chunk:
    the bytes of this one buffer decoded as UTF-8. *)
Definition Buffer_toString (buffer : Buffer) : string :=
  utf8Decode EmptyString 0 128 191 buffer.

(** The parts of a [URL] object the code reads. *)
Record URL := mkURL {
  url_hostname : string;
  url_port : string;
  url_pathname : string;
  url_search : string
}.

(** An [Error] object, by its message. *)
Record Error := mkError { error_message : string }.

(** What a [throw] that no [try] encloses carries: [JSON.parse] throws a
    [SyntaxError] on text that is not JSON, [new URL] a [TypeError] on what
    is no absolute URL ([undefined] when the header is absent). *)
Inductive Exception : Type :=
| SyntaxError (text : string)
| TypeError (input : option string).

End Platform.

(** [loadConfig] of each script returns [{ graphName, apiToken }]. *)
Record Config := mkConfig { graphName : string; apiToken : string }.

(** ** The request helper: [makeHttpsRequest]

    [read-content.js] and [write-content.js] carry the same helper, text
    for text. *)
Module HttpsClient.

Import Platform.

Inductive HeaderValue : Type :=
| HeaderString (s : string)
| HeaderNumber (n : Z).

Inductive Port : Type :=
| PortNumber (n : Z)
| PortString (s : string).

(** The options object handed to [https.request]. *)
Record RequestOptions := mkRequestOptions {
  hostname : string;
  port : option Port;
  path : string;
  method : string;
  headers : list (string * HeaderValue);
  timeout : Z
}.

(** The response object: its status code and its [location] header. *)
Record IncomingMessage := mkIncomingMessage {
  statusCode : Z;
  headers_location : option string
}.

(** The events of an exchange.  A request emits ['error'] or ['timeout'],
    or calls back with a response; the response then emits ['data'] with a
    [Buffer] for each chunk (no encoding is set), and the exchange finishes
    with ['end'] on the response, with ['error'] or ['timeout'] on the
    request, or, when the peer closes the connection before the body is
    complete, with ['aborted'] and ['close'] on the response, which no
    listener is registered for.  An exchange records the events up to the
    first one that settles the promise: [resolve] and [reject] on a settled
    promise do nothing.  The body of a redirect response is not read, and
    what the first request emits once its redirect is under way is left
    out. *)
Inductive Failure : Type :=
| ErrorEvent (err : Error)
| TimeoutEvent.

Inductive Ending : Type :=
| EndEvent
| Broken (f : Failure)
| Aborted.

Inductive Exchange : Type :=
| NoResponse (f : Failure)
| Response (res : IncomingMessage) (chunks : list Buffer) (ending : Ending).

(** What [reject] is called with: the object [{ statusCode, message }], or
    an [Error]. *)
Inductive Rejection : Type :=
| HttpFailure (statusCode : Z) (message : string)
| ErrorObject (err : Error).

(** How a call ends: the promise is resolved with [{ statusCode, data }],
    or rejected, or an exception leaves a listener, or no listener is ever
    called and the promise stays pending.  A listener runs from the event
    loop, after the executor of the promise has returned: an exception it
    throws settles nothing. *)
Inductive Outcome : Type :=
| Resolves (statusCode : Z) (data : JSON)
| Rejects (reason : Rejection)
| Throws (exn : Exception)
| Pending.

Section Client.

Context {World : Type}.

(** [https.request(opts, callback)] followed by [req.write(payload)] and
    [req.end()]: the exchange with the peer, in a world it may change. *)
Variable https_request : RequestOptions -> string -> World -> Exchange * World.

(** [JSON.parse]; [None] when it throws. *)
Variable JSON_parse : string -> option JSON.

(** [new URL(text)]; [None] when it throws. *)
Variable URL_new : string -> option URL.

(** [let data = ''] and the ['data'] listener [data += chunk]: the chunk
    is turned into a string by itself and appended. *)
Definition accumulate (chunks : list Buffer) : string :=
  fold_left (fun data chunk => data +:+ Buffer_toString chunk) chunks "".

(** The ['error'] and ['timeout'] listeners of a request:
    [req.on('error', reject)] and
    [req.on('timeout', () => { req.destroy(); reject(new Error('Request timeout')); })]. *)
Definition onFailure (f : Failure) : Outcome :=
  match f with
  | ErrorEvent err => Rejects (ErrorObject err)
  | TimeoutEvent => Rejects (ErrorObject (mkError "Request timeout"))
  end.

(** The ['end'] listener of a response, the same for both hops:
    [if (res.statusCode === 200) resolve({ statusCode, data: data ? JSON.parse(data) : {} })
     else reject({ statusCode, message: data })]. *)
Definition onEnd (res : IncomingMessage) (data : string) : Outcome :=
  if statusCode res =? 200 then
    if (data =? "")%string then Resolves (statusCode res) (JObject [])
    else
      match JSON_parse data with
      | Some parsed => Resolves (statusCode res) parsed
      | None => Throws (SyntaxError data)
      end
  else Rejects (HttpFailure (statusCode res) data).

(** [redirectOpts], built from the parsed [location] header.
    [redirectUrl.port || 443]: the port of a URL is a string, empty when
    the URL names none. *)
Definition redirectOptions (redirectUrl : URL) (opts : RequestOptions)
    (timeout : Z) : RequestOptions :=
  {| hostname := url_hostname redirectUrl;
     port := Some (if (url_port redirectUrl =? "")%string then PortNumber 443
                   else PortString (url_port redirectUrl));
     path := url_pathname redirectUrl +:+ url_search redirectUrl;
     method := method opts;
     headers := headers opts;
     timeout := timeout |}.

(** [new URL(res.headers.location)] *)
Definition locationURL (res : IncomingMessage) : Exception + URL :=
  match headers_location res with
  | None => inl (TypeError None)
  | Some text =>
      match URL_new text with
      | Some url => inr url
      | None => inl (TypeError (Some text))
      end
  end.

Definition makeHttpsRequest (requestOptions : RequestOptions)
    (payload : string) (timeout : Z) (w : World) : Outcome * World :=
  let makeRequest (opts : RequestOptions) :=
    match https_request opts payload w with
    | (Response res chunks ending, w1) =>
        if (statusCode res =? 301) || (statusCode res =? 302)
           || (statusCode res =? 308) then
          match locationURL res with
          | inl exn => (Throws exn, w1)
          | inr redirectUrl =>
              let redirectOpts := redirectOptions redirectUrl opts timeout in
              match https_request redirectOpts payload w1 with
              | (Response redirectRes chunks' EndEvent, w2) =>
                  (onEnd redirectRes (accumulate chunks'), w2)
              | (Response _ _ (Broken f), w2) => (onFailure f, w2)
              | (Response _ _ Aborted, w2) => (Pending, w2)
              | (NoResponse f, w2) => (onFailure f, w2)
              end
          end
        else
          match ending with
          | EndEvent => (onEnd res (accumulate chunks), w1)
          | Broken f => (onFailure f, w1)
          | Aborted => (Pending, w1)
          end
    | (NoResponse f, w1) => (onFailure f, w1)
    end in
  makeRequest requestOptions.

(** *** Vocabulary of the specification *)

(** A redirect status: 301, 302 or 308. *)
Definition isRedirect (status : Z) : bool :=
  (status =? 301) || (status =? 302) || (status =? 308).

(** The final response of a call, in the words of the specification: the
    response to the request when its status is no redirect status;
    otherwise the response to the one additional request, sent to the
    target of the [Location] header.  [FinalResponse opts payload timeout w
    res chunks ending w'] gives its body chunks, how it finished, and the
    world after it. *)
Inductive FinalResponse (requestOptions : RequestOptions) (payload : string)
    (timeout : Z) (w : World)
  : IncomingMessage -> list Buffer -> Ending -> World -> Prop :=
| final_direct res chunks ending w1 :
    https_request requestOptions payload w = (Response res chunks ending, w1) ->
    isRedirect (statusCode res) = false ->
    FinalResponse requestOptions payload timeout w res chunks ending w1
| final_redirected res0 chunks0 ending0 w1 redirectUrl res chunks ending w2 :
    https_request requestOptions payload w = (Response res0 chunks0 ending0, w1) ->
    isRedirect (statusCode res0) = true ->
    locationURL res0 = inr redirectUrl ->
    https_request (redirectOptions redirectUrl requestOptions timeout) payload w1
      = (Response res chunks ending, w2) ->
    FinalResponse requestOptions payload timeout w res chunks ending w2.

(** Time, read off the world in milliseconds by [now]: every request is
    over (answered, failed or timed out) within the [timeout] of its own
    options. *)
Definition honoursTimeout (now : World -> Z) : Prop :=
  forall opts payload w,
    now (snd (https_request opts payload w)) - now w <= timeout opts.

End Client.

End HttpsClient.

(** ** create-pages.js: [makeRoamRequest] *)
Module CreatePages.

Import Platform HttpsClient.

Section Client.

Context {World : Type}.
Variable https_request : RequestOptions -> string -> World -> Exchange * World.
Variable JSON_parse : string -> option JSON.
Variable URL_new : string -> option URL.

(** [JSON.stringify] *)
Variable JSON_stringify : JSON -> string.

(** [Buffer.byteLength]; a string is the sequence of its bytes. *)
Definition Buffer_byteLength (text : string) : Z := Z.of_nat (String.length text).

(** The headers both the request and its redirect are sent with. *)
Definition roamHeaders (config : Config) (payload : string)
  : list (string * HeaderValue) :=
  [ ("Content-Type", HeaderString "application/json");
    ("Content-Length", HeaderNumber (Buffer_byteLength payload));
    ("Authorization", HeaderString ("Bearer " +:+ apiToken config));
    ("Accept", HeaderString "application/json") ].

Definition makeRoamRequest (config : Config) (data : JSON) (timeout : Z)
    (w : World) : Outcome * World :=
  let payload := JSON_stringify data in
  let options :=
    {| hostname := "api.roamresearch.com";
       port := None;
       path := "/api/graph/" +:+ graphName config +:+ "/write";
       method := "POST";
       headers := roamHeaders config payload;
       timeout := timeout |} in
  let makeRequest (requestOptions : RequestOptions) :=
    match https_request requestOptions payload w with
    | (Response res chunks ending, w1) =>
        if (statusCode res =? 301) || (statusCode res =? 302)
           || (statusCode res =? 308) then
          match locationURL URL_new res with
          | inl exn => (Throws exn, w1)
          | inr redirectUrl =>
              let redirectOptions :=
                {| hostname := url_hostname redirectUrl;
                   port := Some (if (url_port redirectUrl =? "")%string
                                 then PortNumber 443
                                 else PortString (url_port redirectUrl));
                   path := url_pathname redirectUrl +:+ url_search redirectUrl;
                   method := "POST";
                   headers := roamHeaders config payload;
                   timeout := timeout |} in
              match https_request redirectOptions payload w1 with
              | (Response redirectRes redirectChunks EndEvent, w2) =>
                  (onEnd JSON_parse redirectRes (accumulate redirectChunks), w2)
              | (Response _ _ (Broken f), w2) => (onFailure f, w2)
              | (Response _ _ Aborted, w2) => (Pending, w2)
              | (NoResponse f, w2) => (onFailure f, w2)
              end
          end
        else
          match ending with
          | EndEvent => (onEnd JSON_parse res (accumulate chunks), w1)
          | Broken f => (onFailure f, w1)
          | Aborted => (Pending, w1)
          end
    | (NoResponse f, w1) => (onFailure f, w1)
    end in
  makeRequest options.

(** The options [makeRoamRequest] starts from. *)
Definition writeOptions (config : Config) (payload : string) (timeout : Z)
  : RequestOptions :=
  {| hostname := "api.roamresearch.com";
     port := None;
     path := "/api/graph/" +:+ graphName config +:+ "/write";
     method := "POST";
     headers := roamHeaders config payload;
     timeout := timeout |}.

End Client.

End CreatePages.

(** ** read-content.js: the block tree *)
Module ReadContent.

Import Platform.

(** A row of the children query: [[uid, string, order]].  The query binds
    [?childOrder] to [:block/order], an integer. *)
Definition Row : Type := string * string * Z.

(** [{ uid, string, order }] *)
Record Child := mkChild {
  child_uid : string;
  child_string : string;
  child_order : Z
}.

(** [{ uid, string, order, children }] *)
Inductive Block : Type :=
  mkBlock {
    block_uid : string;
    block_string : string;
    block_order : Z;
    block_children : list Block
  }.

(** The Datalog text sent by [fetchChildren]; it is opaque to the scripts. *)
Definition childrenQuery : string :=
  "[:find ?childUid ?childString ?childOrder
 :in $ ?parentUid
 :where [?parent :block/uid ?parentUid]
        [?parent :block/children ?child]
        [?child :block/uid ?childUid]
        [?child :block/string ?childString]
        [?child :block/order ?childOrder]]".

Section Tree.

Context {World E : Type}.

(** [runQuery(config, query, queryArgs)]: the request to the remote graph.
    It fulfils with the result rows, in whatever sequence the service
    produced them, or rejects.  It is the one thing the tree is fetched
    through, and any function of this type may stand for it. *)
Variable runQuery : Config -> string -> list string -> Async.t World E (list Row).

(** The comparator of [fetchChildren]: [(a, b) => a.order - b.order]. *)
Definition compareOrder (a b : Child) : Z := child_order a - child_order b.

(** The callback of [result.map]: [([uid, string, order]) => ({ uid, string, order })]. *)
Definition toChild (row : Row) : Child :=
  let '(uid, string, order) := row in mkChild uid string order.

Definition fetchChildren (config : Config) (parentUid : string)
  : Async.t World E (list Child) :=
  result <- await runQuery config childrenQuery [parentUid] ;;
  Async.ret (Array_sort compareOrder (map toChild result)).

(** The [for (const child of children)] loop of [buildBlockTree]: [body]
    computes the block of one child, which is pushed onto [blocks]. *)
Fixpoint forEachChild (body : Child -> Async.t World E Block)
    (children : list Child) (blocks : list Block)
  : Async.t World E (list Block) :=
  match children with
  | [] => Async.ret blocks
  | child :: rest =>
      block <- await body child ;;
      forEachChild body rest (blocks ++ [block])
  end.

(** [buildBlockTree] with [levels] levels left before [depth >= maxDepth]. *)
Fixpoint buildLevels (levels : nat) (config : Config) (parentUid : string)
  : Async.t World E (list Block) :=
  match levels with
  | O => Async.ret []
  | S levels' =>
      children <- await fetchChildren config parentUid ;;
      forEachChild
        (fun child =>
           subChildren <- await buildLevels levels' config (child_uid child) ;;
           Async.ret (mkBlock (child_uid child) (child_string child)
                              (child_order child) subChildren))
        children []
  end.

(** [buildBlockTree(config, parentUid, depth, maxDepth)].  The recursion of
    the source is on [depth], which grows towards [maxDepth]; here it is
    structural on the distance [maxDepth - depth].  Lemma
    [buildBlockTree_unfold] below shows that this function satisfies the
    recursive equation the source is written with. *)
Definition buildBlockTree (config : Config) (parentUid : string)
    (depth maxDepth : Z) : Async.t World E (list Block) :=
  buildLevels (Z.to_nat (maxDepth - depth)) config parentUid.

(** The call of [readPage]: [depth = 0], [maxDepth = 10]. *)
Definition buildBlockTree_default (config : Config) (uid : string)
  : Async.t World E (list Block) :=
  buildBlockTree config uid 0 10.

End Tree.

(** *** Observing a traversal

    [recording runQuery] answers as [runQuery] does and appends every
    query, with its arguments and how it settled, to a log kept beside the
    world.  Running the unchanged [buildBlockTree] over it yields the
    sequence of queries the traversal makes. *)
Definition Call (E : Type) : Type := list string * Settled E (list Row).

Definition recording {World E : Type}
    (runQuery : Config -> string -> list string -> Async.t World E (list Row))
  : Config -> string -> list string -> Async.t (World * list (Call E)) E (list Row) :=
  fun config query queryArgs state =>
    let '(w, calls) := state in
    let '(settled, w') := runQuery config query queryArgs w in
    (settled, (w', calls ++ [(queryArgs, settled)])).

Definition succeeded {E : Type} (call : Call E) : bool :=
  match snd call with
  | Fulfilled _ => true
  | Rejected _ => false
  end.

(** The queries [added] fit the way a computation settled: all of them
    succeeded when it fulfilled; when it rejected with [e], the last one
    failed with [e] and the ones before succeeded. *)
Definition fits {E A} (settled : Settled E A) (added : list (Call E)) : Prop :=
  match settled with
  | Fulfilled _ => Forall (fun call => succeeded call = true) added
  | Rejected e =>
      exists before queryArgs,
        added = before ++ [(queryArgs, Rejected e)] /\
        Forall (fun call => succeeded call = true) before
  end.

(** [observed] is [plain] run over the recording query function: it
    settles the same way, leaves the same world, and extends the log by
    queries that fit. *)
Definition traces {World E A} (observed : Async.t (World * list (Call E)) E A)
    (plain : Async.t World E A) : Prop :=
  forall w calls,
    exists added,
      observed (w, calls) = (fst (plain w), (snd (plain w), calls ++ added)) /\
      fits (fst (plain w)) added.

(** *** Shape of a tree *)

(** [l] is ascending. *)
Fixpoint ascending (l : list Z) : bool :=
  match l with
  | x :: (y :: _) as tl => (x <=? y) && ascending tl
  | _ => true
  end.

(** The children of [b], and of every block below it, are in ascending
    [order]. *)
Fixpoint sortedBelow (b : Block) : bool :=
  ascending (map block_order (block_children b))
  && forallb sortedBelow (block_children b).

(** A sequence of blocks is sorted by [order] at every level. *)
Definition sortedAtEveryLevel (blocks : list Block) : bool :=
  ascending (map block_order blocks) && forallb sortedBelow blocks.

(** Number of levels of a block with everything below it: 1 for a block
    without children. *)
Fixpoint blockLevels (b : Block) : nat :=
  S (list_max (map blockLevels (block_children b))).

(** The depth of the deepest node of a sequence of blocks; the blocks
    themselves are at depth 1, and an empty sequence has depth 0. *)
Definition treeDepth (blocks : list Block) : nat :=
  list_max (map blockLevels blocks).

(** The [{ uid, string, order }] part of a block. *)
Definition blockHead (b : Block) : Child :=
  mkChild (block_uid b) (block_string b) (block_order b).

End ReadContent.

(** ** write-content.js: the title of today's daily note *)
Module WriteContent.

(** What [getTodayRoamTitle] reads of [new Date()]: [getMonth()] counts
    from 0, [getDate()] is the day of the month. *)
Record Date := mkDate {
  getMonth : nat;
  getDate : Z;
  getFullYear : Z
}.

Definition months : list string :=
  [ "January"; "February"; "March"; "April"; "May"; "June";
    "July"; "August"; "September"; "October"; "November"; "December" ].

(** [day % 10] is the remainder of the truncated division. *)
Definition getOrdinalSuffix (day : Z) : string :=
  if (day >=? 11) && (day <=? 13) then "th"
  else
    match Z.rem day 10 with
    | 1 => "st"
    | 2 => "nd"
    | 3 => "rd"
    | _ => "th"
    end.

(** [now] is the value of [new Date()].  An index outside the array reads
    [undefined], which a template literal prints as such. *)
Definition getTodayRoamTitle (now : Date) : string :=
  let month := default "undefined" (months !! getMonth now) in
  let day := getDate now in
  let year := getFullYear now in
  let suffix := getOrdinalSuffix day in
  month +:+ " " +:+ pretty day +:+ suffix +:+ ", " +:+ pretty year.

(** A [Date] object keeps its month within 0..11 and its day within 1..31. *)
Definition validDate (now : Date) : Prop :=
  (getMonth now < 12)%nat /\ 1 <= getDate now <= 31.

End WriteContent.

(** ** Reference built-ins

    [JSON.parse] and [new URL] on the texts the examples use: JSON with
    integers and strings without escapes, and [https:] URLs.  Text outside
    of that is refused. *)
Module Reference.

Import Platform.

Definition quote : ascii := "034"%char.

Definition isSpace (c : ascii) : bool :=
  (c =? " ")%char || (c =? "009")%char || (c =? "010")%char || (c =? "013")%char.

Definition isDigit (c : ascii) : bool :=
  ((48 <=? nat_of_ascii c) && (nat_of_ascii c <=? 57))%nat.

Fixpoint skipSpace (s : list ascii) : list ascii :=
  match s with
  | c :: s' => if isSpace c then skipSpace s' else s
  | [] => []
  end.

(** The longest prefix of [s] whose characters satisfy [p], and the rest. *)
Fixpoint span (p : ascii -> bool) (s : list ascii) : list ascii * list ascii :=
  match s with
  | c :: s' =>
      if p c then let '(front, back) := span p s' in (c :: front, back)
      else ([], s)
  | [] => ([], [])
  end.

Definition digitsValue (digits : list ascii) : Z :=
  fold_left (fun acc d => 10 * acc + (Z.of_nat (nat_of_ascii d) - 48)) digits 0.

(** The characters of a string literal after its opening quote. *)
Definition spanLiteral (s : list ascii) : option (string * list ascii) :=
  match span (fun c => negb (c =? quote)%char && negb (c =? "\")%char
                       && (32 <=? nat_of_ascii c)%nat) s with
  | (chars, c :: rest) =>
      if (c =? quote)%char then Some (string_of_list_ascii chars, rest) else None
  | (_, []) => None
  end.

Definition parseNumber (s : list ascii) : option (JSON * list ascii) :=
  match span isDigit s with
  | ([], _) => None
  | (digits, rest) =>
      match digits, rest with
      | "0"%char :: _ :: _, _ => None
      | _, ("."%char | "e"%char | "E"%char) :: _ => None
      | _, _ => Some (JNumber (digitsValue digits), rest)
      end
  end.

Fixpoint parseValue (fuel : nat) (s : list ascii) : option (JSON * list ascii) :=
  match fuel with
  | O => None
  | S fuel' =>
      match skipSpace s with
      | "n"%char :: "u"%char :: "l"%char :: "l"%char :: r => Some (JNull, r)
      | "t"%char :: "r"%char :: "u"%char :: "e"%char :: r => Some (JBool true, r)
      | "f"%char :: "a"%char :: "l"%char :: "s"%char :: "e"%char :: r =>
          Some (JBool false, r)
      | "["%char :: r =>
          match skipSpace r with
          | "]"%char :: r' => Some (JArray [], r')
          | _ =>
              match parseItems fuel' r with
              | Some (items, r') => Some (JArray items, r')
              | None => None
              end
          end
      | "{"%char :: r =>
          match skipSpace r with
          | "}"%char :: r' => Some (JObject [], r')
          | _ =>
              match parseMembers fuel' r with
              | Some (members, r') => Some (JObject members, r')
              | None => None
              end
          end
      | "-"%char :: r =>
          match parseNumber r with
          | Some (JNumber n, r') => Some (JNumber (- n), r')
          | _ => None
          end
      | c :: r =>
          if (c =? quote)%char then
            match spanLiteral r with
            | Some (text, r') => Some (JString text, r')
            | None => None
            end
          else parseNumber (c :: r)
      | [] => None
      end
  end
with parseItems (fuel : nat) (s : list ascii) : option (list JSON * list ascii) :=
  match fuel with
  | O => None
  | S fuel' =>
      match parseValue fuel' s with
      | Some (item, r) =>
          match skipSpace r with
          | ","%char :: r' =>
              match parseItems fuel' r' with
              | Some (items, r'') => Some (item :: items, r'')
              | None => None
              end
          | "]"%char :: r' => Some ([item], r')
          | _ => None
          end
      | None => None
      end
  end
with parseMembers (fuel : nat) (s : list ascii)
  : option (list (string * JSON) * list ascii) :=
  match fuel with
  | O => None
  | S fuel' =>
      match skipSpace s with
      | c :: r =>
          if (c =? quote)%char then
            match spanLiteral r with
            | Some (key, r1) =>
                match skipSpace r1 with
                | ":"%char :: r2 =>
                    match parseValue fuel' r2 with
                    | Some (value, r3) =>
                        match skipSpace r3 with
                        | ","%char :: r4 =>
                            match parseMembers fuel' r4 with
                            | Some (members, r5) => Some ((key, value) :: members, r5)
                            | None => None
                            end
                        | "}"%char :: r4 => Some ([(key, value)], r4)
                        | _ => None
                        end
                    | None => None
                    end
                | _ => None
                end
            | None => None
            end
          else None
      | [] => None
      end
  end.

Definition JSON_parse (text : string) : option JSON :=
  let s := list_ascii_of_string text in
  match parseValue (2 * length s + 2) s with
  | Some (value, rest) =>
      match skipSpace rest with
      | [] => Some value
      | _ => None
      end
  | None => None
  end.

(** [JSON.stringify] of a value. *)
Fixpoint JSON_stringify (value : JSON) : string :=
  let q := String quote EmptyString in
  match value with
  | JNull => "null"
  | JBool true => "true"
  | JBool false => "false"
  | JNumber n => pretty n
  | JString s => q +:+ s +:+ q
  | JArray items =>
      "[" +:+ String.concat "," (map JSON_stringify items) +:+ "]"
  | JObject members =>
      "{" +:+ String.concat ","
                (map (fun member =>
                        q +:+ fst member +:+ q +:+ ":" +:+ JSON_stringify (snd member))
                     members) +:+ "}"
  end.

(** [new URL(text)] for [https://host[:port][/path][?search]]. *)
Definition URL_new (text : string) : option URL :=
  match list_ascii_of_string text with
  | "h"%char :: "t"%char :: "t"%char :: "p"%char :: "s"%char
    :: ":"%char :: "/"%char :: "/"%char :: rest =>
      let stops (marks : list ascii) (c : ascii) : bool :=
        negb (existsb (fun m => (c =? m)%char) marks) in
      let '(authority, tail) := span (stops ["/"; "?"; "#"]%char) rest in
      let '(host, colonPort) := span (stops [":"%char]) authority in
      let '(pathname, tail') := span (stops ["?"; "#"]%char) tail in
      let '(search, _) := span (stops ["#"%char]) tail' in
      let portText :=
        match colonPort with
        | _ :: digits => string_of_list_ascii digits
        | [] => ""
        end in
      if (length host =? 0)%nat
         || negb (forallb isDigit (list_ascii_of_string portText)) then None
      else
        Some {| url_hostname := string_of_list_ascii host;
                url_port := if (portText =? "443")%string then "" else portText;
                url_pathname :=
                  match pathname with
                  | [] => "/"
                  | _ => string_of_list_ascii pathname
                  end;
                url_search :=
                  match search with
                  | [_] => ""
                  | _ => string_of_list_ascii search
                  end |}
  | _ => None
  end.

End Reference.

(** ** Example worlds *)
Module Examples.

Import Platform HttpsClient ReadContent.

(** *** A network of scripted peers

    The world is a clock in milliseconds and the requests sent so far.  A
    peer, found by host name, answers after its latency with its exchange;
    a request whose [timeout] is shorter than that times out instead. *)
Record Net := mkNet { clock : Z; sent : list RequestOptions }.

Definition after (elapsed : Z) (opts : RequestOptions) (w : Net) : Net :=
  {| clock := clock w + elapsed; sent := sent w ++ [opts] |}.

Definition network (peers : gmap string (Z * Exchange))
    (opts : RequestOptions) (payload : string) (w : Net) : Exchange * Net :=
  let unknownHost := NoResponse (ErrorEvent (mkError "getaddrinfo ENOTFOUND")) in
  let '(latency, exchange) := default (0, unknownHost) (peers !! hostname opts) in
  if timeout opts <? latency
  then (NoResponse TimeoutEvent, after (timeout opts) opts w)
  else (exchange, after latency opts w).

Definition startOfDay : Net := {| clock := 0; sent := [] |}.

Definition config : Config :=
  {| graphName := "my-graph"; apiToken := "roam-graph-token-xxx" |}.

(** The options [runQuery] builds for its request. *)
Definition queryOptions (payload : string) : RequestOptions :=
  {| hostname := "api.roamresearch.com";
     port := None;
     path := "/api/graph/" +:+ graphName config +:+ "/q";
     method := "POST";
     headers :=
       [ ("Content-Type", HeaderString "application/json");
         ("Content-Length", HeaderNumber (Z.of_nat (String.length payload)));
         ("Authorization", HeaderString ("Bearer " +:+ apiToken config));
         ("Accept", HeaderString "application/json") ];
     timeout := 30000 |}.

Definition query : JSON := JObject [("query", JString "[:find ?e :where [?e :node/title]]")].
Definition payload : string := Reference.JSON_stringify query.

Definition moved (location : string) : IncomingMessage :=
  {| statusCode := 301; headers_location := Some location |}.
Definition status (code : Z) : IncomingMessage :=
  {| statusCode := code; headers_location := None |}.

(** The body [{"result":[]}], in two chunks. *)
Definition emptyResult : list Buffer :=
  [ "{" +:+ String Reference.quote "result"; String Reference.quote ":[]}" ].

(** 301 at the API host, then 200 at [host2]; each answers after 20 s. *)
Definition movedOnce : gmap string (Z * Exchange) :=
  {[ "api.roamresearch.com" :=
       (20000, Response (moved "https://host2/path2") [] EndEvent);
     "host2" := (20000, Response (status 200) emptyResult EndEvent) ]}.

(** 301 at the API host, 301 again at [host2], 200 at [host3]. *)
Definition movedTwice : gmap string (Z * Exchange) :=
  {[ "api.roamresearch.com" :=
       (50, Response (moved "https://host2/path2") [] EndEvent);
     "host2" :=
       (50, Response (moved "https://host3/path3") ["Moved "; "Permanently"] EndEvent);
     "host3" := (50, Response (status 200) emptyResult EndEvent) ]}.

(** The request the redirect of [movedOnce] and [movedTwice] leads to. *)
Definition secondHop : RequestOptions :=
  {| hostname := "host2";
     port := Some (PortNumber 443);
     path := "/path2";
     method := "POST";
     headers :=
       [ ("Content-Type", HeaderString "application/json");
         ("Content-Length", HeaderNumber (Z.of_nat (String.length payload)));
         ("Authorization", HeaderString ("Bearer " +:+ apiToken config));
         ("Accept", HeaderString "application/json") ];
     timeout := 30000 |}.

(** One peer with one answer. *)
Definition answering (code : Z) (chunks : list Buffer) : gmap string (Z * Exchange) :=
  {[ "api.roamresearch.com" := (50, Response (status code) chunks EndEvent) ]}.

(** The two bytes of the letter e with an acute accent, C3 A9. *)
Definition eAcute : string := String "195" (String "169" EmptyString).

(** The body [caf] and that letter, cut between its two bytes. *)
Definition splitCharacter : list Buffer :=
  [ "caf" +:+ String "195" EmptyString; String "169" EmptyString ].

(** The same body, cut in front of the letter. *)
Definition wholeCharacters : list Buffer := [ "caf"; eAcute ].

(** *** Remote graphs

    A graph gives, for the uid of a parent, how the children query
    settles; a uid it does not know has no children.  The world is the
    sequence of uids queried so far. *)
Definition graphQuery (graph : gmap string (Settled string (list Row)))
  : Config -> string -> list string -> Async.t (list string) string (list Row) :=
  fun _ _ queryArgs queried =>
    match queryArgs with
    | [parentUid] =>
        (default (Fulfilled []) (graph !! parentUid), queried ++ [parentUid])
    | _ => (Fulfilled [], queried)
    end.

(** The example of the specification: the children come back as b, a. *)
Definition outOfOrder : gmap string (Settled string (list Row)) :=
  {[ "page" := Fulfilled [("b", "second", 2); ("a", "first", 1)];
     "a" := Fulfilled [("a3", "z", 7); ("a1", "x", 0); ("a2", "y", 3)] ]}.

(** The children of the page can be fetched, those of one grandchild
    cannot. *)
Definition brokenGrandchild : gmap string (Settled string (list Row)) :=
  {[ "page" := Fulfilled [("c2", "two", 1); ("c1", "one", 0)];
     "c1" := Fulfilled [("g1", "deep", 0); ("g2", "deeper", 1)];
     "g1" := Rejected "HTTP 500";
     "c2" := Fulfilled [("g3", "never fetched", 0)] ]}.

(** A chain without end: every block has one child. *)
Definition chainQuery
  : Config -> string -> list string -> Async.t (list string) string (list Row) :=
  fun _ _ queryArgs queried =>
    match queryArgs with
    | [parentUid] =>
        (Fulfilled [(parentUid +:+ "+", "link", 0)], queried ++ [parentUid])
    | _ => (Fulfilled [], queried)
    end.

(** The tree of [outOfOrder] below the page. *)
Definition outOfOrderTree : list Block :=
  [ mkBlock "a" "first" 1
      [ mkBlock "a1" "x" 0 []; mkBlock "a2" "y" 3 []; mkBlock "a3" "z" 7 [] ];
    mkBlock "b" "second" 2 [] ].

(** The first three links of the chain below n. *)
Definition chainOfThree : list Block :=
  [ mkBlock "n+" "link" 0 [ mkBlock "n++" "link" 0 [ mkBlock "n+++" "link" 0 [] ] ] ].

End Examples.

(** ** Values at run time

    What the scripts do with a parsed body: test it for truth, read a
    property, take its length, index it. *)
Module JS.

Import Platform.

(** A value is a JSON value or [undefined] ([None]). *)
Definition truthy (v : option JSON) : bool :=
  match v with
  | None => false
  | Some JNull => false
  | Some (JBool b) => b
  | Some (JNumber n) => negb (n =? 0)
  | Some (JString s) => negb (s =? "")%string
  | Some (JArray _) => true
  | Some (JObject _) => true
  end.

(** The own property [key] of an object: of two members with one key,
    [JSON.parse] keeps the later. *)
Fixpoint getOwn (members : list (string * JSON)) (key : string) : option JSON :=
  match members with
  | [] => None
  | (k, v) :: rest =>
      match getOwn rest key with
      | Some later => Some later
      | None => if (k =? key)%string then Some v else None
      end
  end.

(** [v.key] for a value other than [null] and a key that no prototype
    defines ([result], [message], [0]). *)
Definition member (v : JSON) (key : string) : option JSON :=
  match v with
  | JObject members => getOwn members key
  | _ => None
  end.

(** [text.includes(part)] *)
Fixpoint includes (text part : string) : bool :=
  if String.prefix part text then true
  else
    match text with
    | EmptyString => false
    | String _ rest => includes rest part
    end.

(** [title.replace(/"/g, '\"')]: a backslash goes in front of every
    double quote. *)
Fixpoint escapeQuotes (title : string) : string :=
  match title with
  | EmptyString => EmptyString
  | String c rest =>
      if (c =? "034")%char then String "\" (String c (escapeQuotes rest))
      else String c (escapeQuotes rest)
  end.

(** Reading an escaped title back: a backslash in front of a double quote
    is dropped. *)
Fixpoint unescapeQuotes (text : string) : string :=
  match text with
  | EmptyString => EmptyString
  | String c rest =>
      match rest with
      | String d rest' =>
          if (c =? "\")%char && (d =? "034")%char
          then String d (unescapeQuotes rest')
          else String c (unescapeQuotes rest)
      | EmptyString => String c EmptyString
      end
  end.

(** [if (v) return v]: the value, when it is truthy. *)
Definition whenTruthy (v : option JSON) : option JSON :=
  if truthy v then v else None.

(** [[...new Set(items)]]: the items in the sequence they were first added
    in. *)
Definition Set_add (set : list string) (item : string) : list string :=
  if decide (item ∈ set) then set else set ++ [item].

Definition Set_from (items : list string) : list string :=
  fold_left Set_add items [].

End JS.

(** ** read-content.js: printing a tree, and the pages modified today *)
Module ReadOutput.

Import Platform ReadContent.

Definition newline : string := String "010" EmptyString.

(** [prefix]: ['  '.repeat(indent) + '- ']. *)
Fixpoint spaces (indent : nat) : string :=
  match indent with
  | O => ""
  | S indent' => "  " +:+ spaces indent'
  end.

(** What the loop of [formatBlockTree] adds to [output] for one block at
    [indent]: its line, and the text of its children when there are any. *)
Fixpoint formatBlock (indent : nat) (block : Block) : string :=
  (spaces indent +:+ "- " +:+ block_string block +:+ newline)
  +:+ match block_children block with
      | [] => ""
      | children =>
          fold_left (fun output child => output +:+ formatBlock (S indent) child)
                    children ""
      end.

(** [formatBlockTree(blocks, indent)].  The recursion of the source goes
    through the children of the blocks of the list; lemma
    [formatBlockTree_unfold] shows the equation it is written with. *)
Definition formatBlockTree (blocks : list Block) (indent : nat) : string :=
  fold_left (fun output block => output +:+ formatBlock indent block) blocks "".

(** The blocks of a tree in the sequence of a reader: a block, then what
    is below it, then its next sibling; each with its depth. *)
Fixpoint outlineBlock (depth : nat) (block : Block) : list (nat * string) :=
  (depth, block_string block)
  :: flat_map (outlineBlock (S depth)) (block_children block).

Definition outline (depth : nat) (blocks : list Block) : list (nat * string) :=
  flat_map (outlineBlock depth) blocks.

Definition outlineLine (entry : nat * string) : string :=
  spaces (fst entry) +:+ "- " +:+ snd entry +:+ newline.

(** The lines of a text: what stands between its line breaks. *)
Fixpoint lines (text : string) : list string :=
  match text with
  | EmptyString => [EmptyString]
  | String c rest =>
      if (c =? "010")%char then EmptyString :: lines rest
      else
        match lines rest with
        | line :: more => String c line :: more
        | [] => [String c EmptyString]
        end
  end.

(** The number of spaces a line begins with. *)
Fixpoint indentation (line : string) : nat :=
  match line with
  | String c rest => if (c =? " ")%char then S (indentation rest) else O
  | EmptyString => O
  end.

Fixpoint hasLineBreak (text : string) : bool :=
  match text with
  | EmptyString => false
  | String c rest => (c =? "010")%char || hasLineBreak rest
  end.

(** A row of the modified-today query: [[title, lastEdited]], where the
    time may be missing ([null]). *)
Definition EditRow : Type := string * option Z.

(** [row[1] || 0] *)
Definition editTime (row : EditRow) : Z :=
  match snd row with
  | Some time => if time =? 0 then 0 else time
  | None => 0
  end.

(** The comparator of [readModifiedToday]:
    [(a, b) => (b[1] || 0) - (a[1] || 0)]. *)
Definition compareRecent (a b : EditRow) : Z := editTime b - editTime a.

(** [result.sort(...)] of [readModifiedToday]. *)
Definition sortRecent (result : list EditRow) : list EditRow :=
  Array_sort compareRecent result.

End ReadOutput.

(** ** The scripts as processes

    An [async] function of a script runs in a process: the state it
    threads is the world of the network and what was printed.  It ends
    with a value, or with something thrown that a [catch] receives (the
    reason a promise was rejected with), or with an exception that left a
    listener, which ends the process whatever [try] encloses the call, or
    at an [await] of a promise that stays pending: with nothing left to
    wait for the process then ends, with exit code 0, and nothing after
    the [await] is run. *)
Module Script.

Import Platform HttpsClient.

Inductive Printed : Type :=
| ToStdout (text : string)
| ToStderr (text : string).

Record Process (World : Type) : Type := mkProcess {
  net : World;
  console : list Printed
}.
Arguments mkProcess {World} net console.
Arguments net {World} p.
Arguments console {World} p.

Inductive Abort : Type :=
| Raised (reason : Rejection)
| Uncaught (exn : Exception)
| Unsettled.

Definition t (World A : Type) : Type := Async.t (Process World) Abort A.

(** [await] of a call of the request helper. *)
Definition request {World} (call : World -> Outcome * World)
  : t World (Z * JSON) :=
  fun p =>
    let '(outcome, w) := call (net p) in
    let p' := mkProcess w (console p) in
    match outcome with
    | Resolves statusCode data => (Async.Fulfilled (statusCode, data), p')
    | Rejects reason => (Async.Rejected (Raised reason), p')
    | Throws exn => (Async.Rejected (Uncaught exn), p')
    | Pending => (Async.Rejected Unsettled, p')
    end.

(** [process.stdout.write(text)] *)
Definition stdout_write {World} (text : string) : t World unit :=
  fun p => (Async.Fulfilled tt, mkProcess (net p) (console p ++ [ToStdout text])).

(** [console.log(text)] *)
Definition console_log {World} (text : string) : t World unit :=
  stdout_write (text +:+ String "010" EmptyString).

(** [throw err] *)
Definition throw {World A} (err : Error) : t World A :=
  fun p => (Async.Rejected (Raised (ErrorObject err)), p).

(** [try { body } catch (error) { handler }] *)
Definition tryCatch {World A} (body : t World A) (handler : Rejection -> t World A)
  : t World A :=
  fun p =>
    match body p with
    | (Async.Rejected (Raised error), p') => handler error p'
    | settled => settled
    end.

(** [error.message] of what a [catch] received. *)
Definition message (error : Rejection) : string :=
  match error with
  | HttpFailure _ text => text
  | ErrorObject err => error_message err
  end.

(** [error.message || 'Unknown error'] *)
Definition messageOrUnknown (error : Rejection) : string :=
  if (message error =? "")%string then "Unknown error" else message error.

End Script.

(** ** read-content.js and write-content.js: queries *)
Module Queries.

Import Platform HttpsClient JS Script.

Section Queries.

Context {World : Type}.
Variable https_request : RequestOptions -> string -> World -> Exchange * World.
Variable JSON_parse : string -> option JSON.
Variable URL_new : string -> option URL.
Variable JSON_stringify : JSON -> string.

(** [text[0]] of a string that is not empty. *)
Variable String_first : string -> string.

(** [v > 0] for a value that is no number. *)
Variable greaterThanZero : JSON -> bool.

(** The [TypeError] of reading a property of [null] or [undefined]. *)
Variable typeError : Error.

(** The options of a query request. *)
Definition queryOptions (config : Config) (payload : string) : RequestOptions :=
  {| hostname := "api.roamresearch.com";
     port := None;
     path := "/api/graph/" +:+ graphName config +:+ "/q";
     method := "POST";
     headers := CreatePages.roamHeaders config payload;
     timeout := 30000 |}.

(** [body]: [{ query }], with [args] when [queryArgs] is given and not
    empty. *)
Definition queryBody (query : string) (queryArgs : option (list JSON)) : JSON :=
  match queryArgs with
  | Some (arg :: args) =>
      JObject [("query", JString query); ("args", JArray (arg :: args))]
  | _ => JObject [("query", JString query)]
  end.

(** [runQuery(config, query, queryArgs)] of read-content.js; [queryArgs] is
    [None] when the caller passes none. *)
Definition runQuery (config : Config) (query : string)
    (queryArgs : option (list JSON)) : Script.t World JSON :=
  let body := queryBody query queryArgs in
  let payload := JSON_stringify body in
  let options := queryOptions config payload in
  response <- await request (makeHttpsRequest https_request JSON_parse URL_new
                               options payload 30000) ;;
  let data := snd response in
  if truthy (Some data) && truthy (member data "result") then
    match member data "result" with
    | Some result => Async.ret result
    | None => Async.ret (JArray [])
    end
  else Async.ret (JArray []).

(** What [runQuery] fulfils with, for the body [data] of the response:
    [data.result] when [data] and [data.result] are truthy, and the empty
    array otherwise. *)
Definition rowsOf (data : JSON) : JSON :=
  match member data "result" with
  | Some result =>
      if truthy (Some data) && truthy (Some result) then result else JArray []
  | None => JArray []
  end.

(** [v.length > 0] *)
Definition lengthPositive (v : JSON) : Script.t World bool :=
  match v with
  | JNull => Script.throw typeError
  | JArray items => Async.ret (negb (length items =? 0)%nat)
  | JString text => Async.ret (negb (text =? "")%string)
  | JObject members =>
      match getOwn members "length" with
      | Some (JNumber n) => Async.ret (0 <? n)
      | Some other => Async.ret (greaterThanZero other)
      | None => Async.ret false
      end
  | JBool _ => Async.ret false
  | JNumber _ => Async.ret false
  end.

(** [v[0]] *)
Definition first (v : option JSON) : Script.t World (option JSON) :=
  match v with
  | None => Script.throw typeError
  | Some JNull => Script.throw typeError
  | Some (JArray items) => Async.ret (head items)
  | Some (JString text) =>
      Async.ret (if (text =? "")%string then None
                 else Some (JString (String_first text)))
  | Some (JObject members) => Async.ret (getOwn members "0")
  | Some (JBool _) => Async.ret None
  | Some (JNumber _) => Async.ret None
  end.

(** The Datalog text of [queryPageUid], with the title between quotes. *)
Definition pageUidQuery (pageTitle : string) : string :=
  "[:find ?uid :where [?e :node/title " +:+ String "034" (escapeQuotes pageTitle)
  +:+ String "034" "] [?e :block/uid ?uid]]".

(** [queryPageUid(config, pageTitle)] of read-content.js. *)
Definition queryPageUid (config : Config) (pageTitle : string)
  : Script.t World (option JSON) :=
  let query := pageUidQuery pageTitle in
  result <- await runQuery config query None ;;
  positive <- await lengthPositive result ;;
  if positive then
    row <- await first (Some result) ;;
    first row
  else Async.ret (Some JNull).

(** [queryPageUid(config, pageTitle)] of write-content.js. *)
Definition queryPageUid_write (config : Config) (pageTitle : string)
  : Script.t World (option JSON) :=
  let query := pageUidQuery pageTitle in
  let payload := JSON_stringify (JObject [("query", JString query)]) in
  let options := queryOptions config payload in
  response <- await request (makeHttpsRequest https_request JSON_parse URL_new
                               options payload 30000) ;;
  let data := snd response in
  if truthy (Some data) && truthy (member data "result") then
    match member data "result" with
    | Some result =>
        positive <- await lengthPositive result ;;
        if positive then
          row <- await first (Some result) ;;
          first row
        else Async.ret (Some JNull)
    | None => Async.ret (Some JNull)
    end
  else Async.ret (Some JNull).

End Queries.

End Queries.

(** ** create-pages.js: creating the pages one by one *)
Module CreateLoop.

Import Platform HttpsClient JS Script.

(** [results]: the titles created and skipped, and the failures with their
    [error]. *)
Record Results := mkResults {
  created : list string;
  skipped : list string;
  failed : list (string * option JSON)
}.

Definition noResults : Results := mkResults [] [] [].

(** What the [catch] of the loop makes of an error. *)
Inductive Verdict : Type :=
| Skip
| Fail (error : option JSON).

Section Loop.

Context {World : Type}.
Variable https_request : RequestOptions -> string -> World -> Exchange * World.
Variable JSON_parse : string -> option JSON.
Variable URL_new : string -> option URL.
Variable JSON_stringify : JSON -> string.

(** [{ action: 'create-page', page: { title } }], with
    [children-view-type] when the option is set. *)
Definition createPageAction (title : string) (childrenViewType : option string)
  : JSON :=
  JObject
    [ ("action", JString "create-page");
      ("page",
       JObject
         (("title", JString title)
          :: match childrenViewType with
             | Some type =>
                 if (type =? "")%string then []
                 else [("children-view-type", JString type)]
             | None => []
             end)) ].

(** The [catch (error)] block of the loop.  Inside its inner [try],
    [errorData.message] throws when [errorData] is [null], and
    [errorData.message.includes] throws when the message is neither a
    string nor an array: the inner [catch] then records the raw message. *)
Definition classify (error : Rejection) : Verdict :=
  match error with
  | HttpFailure statusCode text =>
      if negb (statusCode =? 0) && negb (text =? "")%string then
        match JSON_parse text with
        | None => Fail (Some (JString text))
        | Some JNull => Fail (Some (JString text))
        | Some errorData =>
            let message := member errorData "message" in
            if truthy message then
              match message with
              | Some (JString reason) =>
                  if includes reason "already exists" then Skip else Fail message
              | Some (JArray items) =>
                  if existsb (fun item =>
                                match item with
                                | JString s => (s =? "already exists")%string
                                | _ => false
                                end) items
                  then Skip else Fail message
              | _ => Fail (Some (JString text))
              end
            else Fail message
        end
      else Fail (Some (JString (messageOrUnknown error)))
  | ErrorObject _ => Fail (Some (JString (messageOrUnknown error)))
  end.

(** The [for (const title of uniqueTitles)] loop of [main]. *)
Fixpoint createPages (config : Config) (childrenViewType : option string)
    (uniqueTitles : list string) (results : Results)
  : Script.t World Results :=
  match uniqueTitles with
  | [] => Async.ret results
  | title :: rest =>
      results' <- await
        tryCatch
          (let action := createPageAction title childrenViewType in
           _ <- await request (CreatePages.makeRoamRequest https_request JSON_parse
                                 URL_new JSON_stringify config action 30000) ;;
           _ <- await stdout_write "." ;;
           Async.ret (mkResults (created results ++ [title]) (skipped results)
                                (failed results)))
          (fun error =>
             match classify error with
             | Skip =>
                 _ <- await stdout_write "s" ;;
                 Async.ret (mkResults (created results) (skipped results ++ [title])
                                      (failed results))
             | Fail reason =>
                 _ <- await stdout_write "x" ;;
                 Async.ret (mkResults (created results) (skipped results)
                                      (failed results ++ [(title, reason)]))
             end) ;;
      createPages config childrenViewType rest results'
  end.

(** The end of [main]: [process.exit(1)] when a page failed, and the exit
    code 0 of a script that runs to its end otherwise. *)
Definition exitCode (results : Results) : Z :=
  if (0 <? length (failed results))%nat then 1 else 0.

End Loop.

End CreateLoop.

(** ** write-content.js: the page and its blocks *)
Module WriteBlocks.

Import Platform HttpsClient JS Script Queries.

Record Results := mkResults {
  written : list string;
  failed : list (string * string)
}.

Definition noResults : Results := mkResults [] [].

Section Write.

Context {World : Type}.
Variable https_request : RequestOptions -> string -> World -> Exchange * World.
Variable JSON_parse : string -> option JSON.
Variable URL_new : string -> option URL.
Variable JSON_stringify : JSON -> string.
Variable String_first : string -> string.
Variable greaterThanZero : JSON -> bool.
Variable typeError : Error.

(** The options of a write request. *)
Definition writeOptions (config : Config) (payload : string) : RequestOptions :=
  {| hostname := "api.roamresearch.com";
     port := None;
     path := "/api/graph/" +:+ graphName config +:+ "/write";
     method := "POST";
     headers := CreatePages.roamHeaders config payload;
     timeout := 30000 |}.

Definition createPage (config : Config) (pageTitle : string) : Script.t World unit :=
  let payload :=
    JSON_stringify
      (JObject [ ("action", JString "create-page");
                 ("page", JObject [("title", JString pageTitle)]) ]) in
  let options := writeOptions config payload in
  _ <- await request (makeHttpsRequest https_request JSON_parse URL_new
                        options payload 30000) ;;
  Async.ret tt.

Definition createBlock (config : Config) (parentUid : JSON) (content : string)
  : Script.t World (Z * JSON) :=
  let payload :=
    JSON_stringify
      (JObject [ ("action", JString "create-block");
                 ("location",
                  JObject [("parent-uid", parentUid); ("order", JString "last")]);
                 ("block", JObject [("string", JString content)]) ]) in
  let options := writeOptions config payload in
  request (makeHttpsRequest https_request JSON_parse URL_new options payload 30000).

Definition doesNotExist (pageTitle : string) : string :=
  "  Page " +:+ String "034" pageTitle +:+ String "034" " does not exist, creating it...".

Definition failedToGetUid (pageTitle : string) : Error :=
  mkError ("Failed to get UID for page " +:+ String "034" pageTitle
           +:+ String "034" " after creation").

Definition ensurePageAndGetUid (config : Config) (pageTitle : string)
  : Script.t World JSON :=
  let queryPageUid :=
    queryPageUid_write https_request JSON_parse URL_new JSON_stringify
      String_first greaterThanZero typeError in
  uid <- await queryPageUid config pageTitle ;;
  match whenTruthy uid with
  | Some found => Async.ret found
  | None =>
      _ <- await console_log (doesNotExist pageTitle) ;;
      _ <- await createPage config pageTitle ;;
      uid <- await queryPageUid config pageTitle ;;
      match whenTruthy uid with
      | Some found => Async.ret found
      | None => Script.throw (failedToGetUid pageTitle)
      end
  end.

(** The [for (const content of contentLines)] loop of [main]. *)
Fixpoint writeBlocks (config : Config) (pageUid : JSON)
    (contentLines : list string) (results : Results) : Script.t World Results :=
  match contentLines with
  | [] => Async.ret results
  | content :: rest =>
      results' <- await
        tryCatch
          (_ <- await createBlock config pageUid content ;;
           _ <- await stdout_write "." ;;
           Async.ret (mkResults (written results ++ [content]) (failed results)))
          (fun error =>
             let errorMsg := messageOrUnknown error in
             _ <- await stdout_write "x" ;;
             Async.ret (mkResults (written results)
                                  (failed results ++ [(content, errorMsg)]))) ;;
      writeBlocks config pageUid rest results'
  end.

End Write.

End WriteBlocks.

(** ** Example worlds of the scripts *)
Module Tapes.

Import Platform HttpsClient.

(** A network that plays a tape: each request is answered by the next
    exchange of the tape, and its path and payload are noted.  When the
    tape is over the connection is refused. *)
Record Tape := mkTape {
  pending : list Exchange;
  noted : list (string * string)
}.

Definition play (opts : RequestOptions) (payload : string) (tape : Tape)
  : Exchange * Tape :=
  match pending tape with
  | exchange :: rest =>
      (exchange, mkTape rest (noted tape ++ [(path opts, payload)]))
  | [] =>
      (NoResponse (ErrorEvent (mkError "connect ECONNREFUSED")),
       mkTape [] (noted tape ++ [(path opts, payload)]))
  end.

Definition start (exchanges : list Exchange) : Script.Process Tape :=
  Script.mkProcess (mkTape exchanges []) [].

(** A response with [code] and the body in one chunk. *)
Definition answer (code : Z) (body : string) : Exchange :=
  Response (mkIncomingMessage code None) [body] EndEvent.

(** [text[0]] for a text of one-byte characters. *)
Definition String_first (text : string) : string :=
  match text with
  | String c _ => String c EmptyString
  | EmptyString => EmptyString
  end.

Definition q : string := String Reference.quote EmptyString.

(** [JSON.stringify]: as [Reference.JSON_stringify], with the quotes,
    backslashes and control characters of a string escaped. *)
Definition hexDigit (n : nat) : ascii :=
  ascii_of_nat (if (n <? 10)%nat then 48 + n else 87 + n).

Definition escapeChar (c : ascii) : string :=
  let code := nat_of_ascii c in
  if (c =? Reference.quote)%char then String "\" (String c EmptyString)
  else if (c =? "\")%char then "\\"
  else if (code =? 8)%nat then "\b"
  else if (code =? 9)%nat then "\t"
  else if (code =? 10)%nat then "\n"
  else if (code =? 12)%nat then "\f"
  else if (code =? 13)%nat then "\r"
  else if (code <? 32)%nat
       then "\u00" +:+ String (hexDigit (code / 16))
                           (String (hexDigit (code mod 16)) EmptyString)
  else String c EmptyString.

Fixpoint escapeText (text : string) : string :=
  match text with
  | EmptyString => EmptyString
  | String c rest => escapeChar c +:+ escapeText rest
  end.

Definition quoted (text : string) : string := q +:+ escapeText text +:+ q.

Fixpoint JSON_stringify (value : JSON) : string :=
  match value with
  | JNull => "null"
  | JBool true => "true"
  | JBool false => "false"
  | JNumber n => pretty n
  | JString s => quoted s
  | JArray items =>
      "[" +:+ String.concat "," (map JSON_stringify items) +:+ "]"
  | JObject members =>
      "{" +:+ String.concat ","
                (map (fun member =>
                        quoted (fst member) +:+ ":" +:+ JSON_stringify (snd member))
                     members) +:+ "}"
  end.

(** [{"result":[["uid-1"]]}] *)
Definition foundBody : string :=
  "{" +:+ q +:+ "result" +:+ q +:+ ":[[" +:+ q +:+ "uid-1" +:+ q +:+ "]]}".

(** [{"result":[]}] *)
Definition notFoundBody : string := "{" +:+ q +:+ "result" +:+ q +:+ ":[]}".

(** [{"message":"Page already exists"}] *)
Definition alreadyExistsBody : string :=
  "{" +:+ q +:+ "message" +:+ q +:+ ":" +:+ q +:+ "Page already exists" +:+ q +:+ "}".

(** No example has an object with a [length] of its own. *)
Definition greaterThanZero (v : JSON) : bool := false.

Definition typeError : Error :=
  mkError "Cannot read properties of null (reading '0')".

(** Three titles: the first is created, the second exists, the third
    fails. *)
Definition threeAnswers : list Exchange :=
  [ answer 200 ""; answer 400 alreadyExistsBody; answer 500 "boom" ].

Definition threeTitles : CreateLoop.Results :=
  CreateLoop.mkResults ["A"] ["B"] [("C", Some (JString "boom"))].

(** Two lines: the first is written, the second fails without a text. *)
Definition twoAnswers : list Exchange := [ answer 200 ""; answer 500 "" ].

Definition twoLines : WriteBlocks.Results :=
  WriteBlocks.mkResults ["first"] [("second", "Unknown error")].

End Tapes.

(* ===================================================================== *)
(** * Part II: properties                                                 *)
(* ===================================================================== *)

Import Platform.

(** ** [Array.prototype.sort] with the comparator of [fetchChildren] *)
Section SortFacts.

Context {A : Type} (key : A -> Z).

(** The comparator [(a, b) => key(a) - key(b)]. *)
Local Abbreviation byKey := (fun a b : A => key a - key b).

Lemma sortedInsert_Permutation (compareFn : A -> A -> Z) x l :
  Permutation (sortedInsert compareFn x l) (x :: l).
Proof.
  induction l as [|y l IH]; simpl.
  - reflexivity.
  - destruct (compareFn x y <=? 0).
    + reflexivity.
    + rewrite IH. apply perm_swap.
Qed.

Lemma Array_sort_Permutation (compareFn : A -> A -> Z) l :
  Permutation (Array_sort compareFn l) l.
Proof.
  induction l as [|x l IH]; simpl.
  - reflexivity.
  - fold (Array_sort compareFn l).
    rewrite sortedInsert_Permutation. now rewrite IH.
Qed.

Lemma sortedInsert_HdRel a x l :
  key a <= key x ->
  HdRel Z.le (key a) (map key l) ->
  HdRel Z.le (key a) (map key (sortedInsert byKey x l)).
Proof.
  intros Hax Hl. destruct l as [|y l]; simpl.
  - now constructor.
  - destruct (byKey x y <=? 0); simpl.
    + now constructor.
    + inversion Hl; subst. now constructor.
Qed.

Lemma sortedInsert_Sorted x l :
  Sorted Z.le (map key l) ->
  Sorted Z.le (map key (sortedInsert byKey x l)).
Proof.
  induction l as [|y l IH]; simpl; intros Hs.
  - repeat constructor.
  - destruct (Z.leb_spec (key x - key y) 0) as [Hle|Hgt]; simpl.
    + constructor; [assumption|]. constructor. lia.
    + inversion Hs; subst. constructor.
      * now apply IH.
      * apply sortedInsert_HdRel; [lia | assumption].
Qed.

Lemma Array_sort_Sorted l : Sorted Z.le (map key (Array_sort byKey l)).
Proof.
  induction l as [|x l IH]; simpl.
  - constructor.
  - now apply sortedInsert_Sorted.
Qed.

(** The keys come out in one sequence, whatever sequence the elements came
    in. *)
Lemma Array_sort_order_independent l1 l2 :
  Permutation l1 l2 ->
  map key (Array_sort byKey l1) = map key (Array_sort byKey l2).
Proof.
  intros Hperm.
  apply (Sorted_unique Z.le); try apply Array_sort_Sorted.
  apply Permutation_map.
  now rewrite !Array_sort_Permutation.
Qed.

End SortFacts.

Import ReadContent.

Lemma ascending_Sorted l : ascending l = true <-> Sorted Z.le l.
Proof.
  induction l as [|x [|y l] IH].
  - split; [constructor | reflexivity].
  - split; [repeat constructor | reflexivity].
  - change (ascending (x :: y :: l)) with ((x <=? y) && ascending (y :: l))%bool.
    rewrite andb_true_iff, IH, Z.leb_le. split.
    + intros [Hxy Hs]. constructor; [assumption | now constructor].
    + intros Hs. inversion Hs as [|? ? Hs' Hhd]; subst.
      inversion Hhd; subst. now split.
Qed.

(** ** The monad of awaited computations *)
Section AsyncFacts.

Context {W E A B : Type}.

Lemma bind_Fulfilled (m : Async.t W E A) (k : A -> Async.t W E B) w b w' :
  Async.bind m k w = (Fulfilled b, w') ->
  exists a w1, m w = (Fulfilled a, w1) /\ k a w1 = (Fulfilled b, w').
Proof.
  unfold Async.bind. destruct (m w) as [[a|e] w1]; intros H.
  - now exists a, w1.
  - discriminate.
Qed.

Lemma bind_after (m : Async.t W E A) (k : A -> Async.t W E B) w a w1 :
  m w = (Fulfilled a, w1) -> Async.bind m k w = k a w1.
Proof. unfold Async.bind. now intros ->. Qed.

Lemma bind_rejected (m : Async.t W E A) (k : A -> Async.t W E B) w e w1 :
  m w = (Rejected e, w1) -> Async.bind m k w = (Rejected e, w1).
Proof. unfold Async.bind. now intros ->. Qed.

End AsyncFacts.

(** ** The block tree *)
Section TreeFacts.

Context {World E : Type}.
Variable runQuery : Config -> string -> list string -> Async.t World E (list Row).

(** [buildBlockTree] satisfies the recursive equation of the source. *)
Lemma buildBlockTree_unfold config parentUid depth maxDepth :
  buildBlockTree runQuery config parentUid depth maxDepth =
  if depth >=? maxDepth then Async.ret []
  else
    (children <- await fetchChildren runQuery config parentUid ;;
     forEachChild
       (fun child =>
          subChildren <- await buildBlockTree runQuery config (child_uid child)
                                              (depth + 1) maxDepth ;;
          Async.ret (mkBlock (child_uid child) (child_string child)
                             (child_order child) subChildren))
       children []).
Proof.
  unfold buildBlockTree.
  destruct (Z.geb_spec depth maxDepth) as [Hge|Hlt].
  - replace (Z.to_nat (maxDepth - depth)) with O by lia. reflexivity.
  - replace (Z.to_nat (maxDepth - depth))
      with (S (Z.to_nat (maxDepth - (depth + 1)))) by lia.
    reflexivity.
Qed.

(** What [fetchChildren] does with the rows of the query. *)
Lemma fetchChildren_runQuery config parentUid w :
  fetchChildren runQuery config parentUid w =
  match runQuery config childrenQuery [parentUid] w with
  | (Fulfilled rows, w') =>
      (Fulfilled (Array_sort compareOrder (map toChild rows)), w')
  | (Rejected e, w') => (Rejected e, w')
  end.
Proof.
  unfold fetchChildren, Async.bind, Async.ret.
  now destruct (runQuery config childrenQuery [parentUid] w) as [[rows|e] w'].
Qed.

Lemma fetchChildren_ascending config parentUid w children w' :
  fetchChildren runQuery config parentUid w = (Fulfilled children, w') ->
  ascending (map child_order children) = true.
Proof.
  rewrite fetchChildren_runQuery.
  destruct (runQuery config childrenQuery [parentUid] w) as [[rows|e] w1];
    intros H; inversion H; subst.
  apply ascending_Sorted. apply (Array_sort_Sorted child_order).
Qed.

(** The loop pushes one block per child, in the sequence of the children. *)
Lemma forEachChild_Fulfilled (body : Child -> Async.t World E Block)
    children blocks w result w' :
  forEachChild body children blocks w = (Fulfilled result, w') ->
  exists pushed,
    result = blocks ++ pushed /\
    Forall2 (fun child block =>
               exists w1 w2, body child w1 = (Fulfilled block, w2))
            children pushed.
Proof.
  revert blocks w. induction children as [|child rest IH]; simpl; intros blocks w H.
  - inversion H; subst. exists []. split; [now rewrite app_nil_r | constructor].
  - apply bind_Fulfilled in H as (block & w1 & Hbody & Hrest).
    apply IH in Hrest as (pushed & -> & Hall).
    exists (block :: pushed). split.
    + now rewrite <- app_assoc.
    + constructor; [now exists w, w1 | assumption].
Qed.

(** One level of the tree: the blocks are the children [fetchChildren]
    returned, in that sequence, each with the tree built below it. *)
Lemma buildLevels_Fulfilled levels config parentUid w blocks w' :
  buildLevels runQuery (S levels) config parentUid w = (Fulfilled blocks, w') ->
  exists children w1,
    fetchChildren runQuery config parentUid w = (Fulfilled children, w1) /\
    Forall2 (fun child block =>
               blockHead block = child /\
               exists w2 w3,
                 buildLevels runQuery levels config (child_uid child) w2
                 = (Fulfilled (block_children block), w3))
            children blocks.
Proof.
  simpl. intros H.
  apply bind_Fulfilled in H as (children & w1 & Hfetch & Hloop).
  apply forEachChild_Fulfilled in Hloop as (pushed & -> & Hall).
  exists children, w1. split; [assumption|]. simpl.
  eapply Forall2_impl; [exact Hall|].
  intros child block (w2 & w3 & Hbody). cbv beta in Hbody.
  apply bind_Fulfilled in Hbody as (subChildren & w4 & Hsub & Hret).
  inversion Hret; subst. split.
  - now destruct child.
  - now exists w2, w3.
Qed.

Lemma Forall2_blockHead (P : Child -> Block -> Prop) children blocks :
  Forall2 (fun child block => blockHead block = child /\ P child block)
          children blocks ->
  map blockHead blocks = children.
Proof.
  induction 1 as [|child block children blocks [Hhead _] _ IH]; simpl.
  - reflexivity.
  - now rewrite Hhead, IH.
Qed.

Lemma sortedBelow_children block :
  sortedBelow block = sortedAtEveryLevel (block_children block).
Proof. now destruct block. Qed.

Lemma blockLevels_children block :
  blockLevels block = S (treeDepth (block_children block)).
Proof. now destruct block. Qed.

Lemma buildLevels_sorted levels : forall config parentUid w blocks w',
  buildLevels runQuery levels config parentUid w = (Fulfilled blocks, w') ->
  sortedAtEveryLevel blocks = true.
Proof.
  induction levels as [|levels IH]; intros config parentUid w blocks w' H.
  - inversion H; subst. reflexivity.
  - apply buildLevels_Fulfilled in H as (children & w1 & Hfetch & Hall).
    unfold sortedAtEveryLevel. apply andb_true_iff. split.
    + apply fetchChildren_ascending in Hfetch.
      apply Forall2_blockHead in Hall. subst children.
      now rewrite map_map in Hfetch.
    + apply forallb_forall. intros block Hin.
      rewrite sortedBelow_children.
      assert (Forall (fun block => exists cfg p w2 w3,
                buildLevels runQuery levels cfg p w2
                = (Fulfilled (block_children block), w3)) blocks) as Hsub.
      { clear -Hall. induction Hall as [|c b cs bs [_ (w2 & w3 & Hb)] _ IHall];
          constructor; [now exists config, (child_uid c), w2, w3 | assumption]. }
      rewrite Forall_forall in Hsub.
      destruct (Hsub block) as (cfg & p & w2 & w3 & Hb).
      { now apply list_elem_of_In. }
      eapply IH, Hb.
Qed.

Lemma buildLevels_depth levels : forall config parentUid w blocks w',
  buildLevels runQuery levels config parentUid w = (Fulfilled blocks, w') ->
  (treeDepth blocks <= levels)%nat.
Proof.
  induction levels as [|levels IH]; intros config parentUid w blocks w' H.
  - inversion H; subst. reflexivity.
  - apply buildLevels_Fulfilled in H as (children & w1 & _ & Hall).
    unfold treeDepth. apply list_max_le.
    apply List.Forall_map.
    clear -Hall IH. induction Hall as [|c b cs bs [_ (w2 & w3 & Hb)] _ IHall];
      constructor; [|assumption].
    rewrite blockLevels_children. apply IH in Hb. lia.
Qed.

End TreeFacts.

(** ** The queries of a traversal *)
Section Traversal.

Context {World E : Type}.
Variable runQuery : Config -> string -> list string -> Async.t World E (list Row).

Lemma traces_ret {A} (a : A) :
  traces (World := World) (E := E) (Async.ret a) (Async.ret a).
Proof.
  intros w calls. exists []. simpl. rewrite app_nil_r. split; [reflexivity | constructor].
Qed.

Lemma traces_bind {A B} observed plain
    (observedK : A -> Async.t (World * list (Call E)) E B) plainK :
  traces observed plain ->
  (forall a, traces (observedK a) (plainK a)) ->
  traces (Async.bind observed observedK) (Async.bind plain plainK).
Proof.
  intros Hm Hk w calls. unfold Async.bind.
  destruct (Hm w calls) as (added1 & -> & Hfit1).
  destruct (plain w) as [[a|e] w1]; simpl in *.
  - destruct (Hk a w1 (calls ++ added1)) as (added2 & -> & Hfit2).
    exists (added1 ++ added2). rewrite app_assoc. split; [reflexivity|].
    destruct (fst (plainK a w1)) as [b|e]; simpl in *.
    + now apply Forall_app.
    + destruct Hfit2 as (before & queryArgs & -> & Hbefore).
      exists (added1 ++ before), queryArgs. rewrite app_assoc.
      split; [reflexivity | now apply Forall_app].
  - now exists added1.
Qed.

Lemma traces_runQuery config query queryArgs :
  traces (recording runQuery config query queryArgs)
         (runQuery config query queryArgs).
Proof.
  intros w calls. unfold recording.
  destruct (runQuery config query queryArgs w) as [[rows|e] w1]; simpl.
  - exists [(queryArgs, Fulfilled rows)]. split; [reflexivity|].
    now repeat constructor.
  - exists [(queryArgs, Rejected e)]. split; [reflexivity|].
    exists [], queryArgs. split; [reflexivity | constructor].
Qed.

Lemma traces_fetchChildren config parentUid :
  traces (fetchChildren (recording runQuery) config parentUid)
         (fetchChildren runQuery config parentUid).
Proof.
  unfold fetchChildren. apply traces_bind.
  - apply traces_runQuery.
  - intros rows. apply traces_ret.
Qed.

Lemma traces_forEachChild observedBody (plainBody : Child -> Async.t World E Block)
    children :
  (forall child, traces (observedBody child) (plainBody child)) ->
  forall blocks,
    traces (forEachChild observedBody children blocks)
           (forEachChild plainBody children blocks).
Proof.
  intros Hbody. induction children as [|child rest IH]; intros blocks; simpl.
  - apply traces_ret.
  - apply traces_bind; [apply Hbody | intros block; apply IH].
Qed.

Lemma traces_buildLevels levels : forall config parentUid,
  traces (buildLevels (recording runQuery) levels config parentUid)
         (buildLevels runQuery levels config parentUid).
Proof.
  induction levels as [|levels IH]; intros config parentUid; simpl.
  - apply traces_ret.
  - apply traces_bind; [apply traces_fetchChildren|].
    intros children. apply traces_forEachChild. intros child.
    apply traces_bind; [apply IH | intros subChildren; apply traces_ret].
Qed.

End Traversal.

(** ** The specification of the block tree *)
Section TreeSpec.

Context {World E : Type}.
Variable runQuery : Config -> string -> list string -> Async.t World E (list Row).

(** C1: whatever [runQuery] is, and in whatever sequence it returns the
    children of a block, the blocks [buildBlockTree] returns are in
    ascending [order], and so are the children of every block of the
    tree.  (The function that fetches the children is the query of the
    remote graph: [buildBlockTree] sees its rows through [fetchChildren].) *)
Theorem buildBlockTree_sorted config parentUid depth maxDepth w blocks w' :
  buildBlockTree runQuery config parentUid depth maxDepth w = (Fulfilled blocks, w') ->
  sortedAtEveryLevel blocks = true.
Proof. unfold buildBlockTree. apply buildLevels_sorted. Qed.

(** C5: for [maxDepth >= 0], the tree [buildBlockTree] returns from depth 0
    has no node deeper than [maxDepth]; with [maxDepth = 0] the result is
    the empty sequence and nothing is queried, whatever [runQuery] is. *)
Theorem buildBlockTree_depth_bound config parentUid maxDepth w :
  0 <= maxDepth ->
  (forall blocks w',
     buildBlockTree runQuery config parentUid 0 maxDepth w = (Fulfilled blocks, w') ->
     Z.of_nat (treeDepth blocks) <= maxDepth)
  /\ (maxDepth = 0 ->
      buildBlockTree runQuery config parentUid 0 maxDepth w = (Fulfilled [], w)).
Proof.
  intros Hmax. split.
  - intros blocks w' H. unfold buildBlockTree in H.
    apply buildLevels_depth in H. lia.
  - intros ->. reflexivity.
Qed.

(** C8: let [calls] be the queries a traversal makes, in sequence.  If any
    of them fails, [buildBlockTree] rejects with the error of that query,
    which is the last query made (nothing is fetched after it) and the only
    one that failed; no tree is returned.  And [buildBlockTree] rejects
    only with the error of a failed query. *)
Theorem buildBlockTree_fails_with_first_error config parentUid depth maxDepth w :
  exists calls,
    buildBlockTree (recording runQuery) config parentUid depth maxDepth (w, [])
    = (fst (buildBlockTree runQuery config parentUid depth maxDepth w),
       (snd (buildBlockTree runQuery config parentUid depth maxDepth w), calls))
    /\ (forall queryArgs e,
          In (queryArgs, Rejected e) calls ->
          fst (buildBlockTree runQuery config parentUid depth maxDepth w) = Rejected e
          /\ exists before,
               calls = before ++ [(queryArgs, Rejected e)]
               /\ Forall (fun call => succeeded call = true) before)
    /\ (forall e,
          fst (buildBlockTree runQuery config parentUid depth maxDepth w) = Rejected e ->
          exists queryArgs, In (queryArgs, Rejected e) calls).
Proof.
  unfold buildBlockTree.
  destruct (traces_buildLevels runQuery (Z.to_nat (maxDepth - depth))
              config parentUid w []) as (calls & Hrun & Hfit).
  exists calls. split; [exact Hrun|].
  destruct (fst (buildLevels runQuery (Z.to_nat (maxDepth - depth))
                   config parentUid w)) as [blocks|e0]; simpl in Hfit.
  - split.
    + intros queryArgs e Hin. rewrite Forall_forall in Hfit.
      apply list_elem_of_In, Hfit in Hin. discriminate.
    + discriminate.
  - destruct Hfit as (before & args0 & -> & Hbefore). split.
    + intros queryArgs e Hin. apply in_app_or in Hin as [Hin|[Heq|[]]].
      * rewrite Forall_forall in Hbefore.
        apply list_elem_of_In, Hbefore in Hin. discriminate.
      * inversion Heq; subst. split; [reflexivity|]. now exists before.
    + intros e Heq. inversion Heq; subst. exists args0.
      apply in_or_app. right. now left.
Qed.

(** C9: [fetchChildren] returns the rows of the query, as
    [{ uid, string, order }] records, sorted ascending by [order], whatever
    sequence the query returned them in; and the blocks [buildBlockTree]
    returns are the children [fetchChildren] returned, in the same
    sequence: the tree builder does no sorting of its own. *)
Theorem fetchChildren_establishes_order config parentUid w :
  (forall rows w',
     runQuery config childrenQuery [parentUid] w = (Fulfilled rows, w') ->
     exists children,
       fetchChildren runQuery config parentUid w = (Fulfilled children, w')
       /\ ascending (map child_order children) = true
       /\ Permutation children (map toChild rows))
  /\ (forall depth maxDepth blocks w',
        depth < maxDepth ->
        buildBlockTree runQuery config parentUid depth maxDepth w
        = (Fulfilled blocks, w') ->
        exists children w1,
          fetchChildren runQuery config parentUid w = (Fulfilled children, w1)
          /\ map blockHead blocks = children).
Proof.
  split.
  - intros rows w' Hq.
    exists (Array_sort compareOrder (map toChild rows)).
    assert (fetchChildren runQuery config parentUid w
            = (Fulfilled (Array_sort compareOrder (map toChild rows)), w')) as Hf.
    { rewrite fetchChildren_runQuery. now rewrite Hq. }
    split; [exact Hf|]. split.
    + eapply fetchChildren_ascending, Hf.
    + apply Array_sort_Permutation.
  - intros depth maxDepth blocks w' Hlt H. unfold buildBlockTree in H.
    replace (Z.to_nat (maxDepth - depth))
      with (S (Z.to_nat (maxDepth - (depth + 1)))) in H by lia.
    apply buildLevels_Fulfilled in H as (children & w1 & Hfetch & Hall).
    exists children, w1. split; [assumption|].
    eapply Forall2_blockHead, Hall.
Qed.

End TreeSpec.

(** ** The request helper *)
Section ClientFacts.

Import HttpsClient CreatePages.

Context {World : Type}.
Variable https_request : RequestOptions -> string -> World -> Exchange * World.
Variable JSON_parse : string -> option JSON.
Variable URL_new : string -> option URL.
Variable JSON_stringify : JSON -> string.

Lemma append_empty_r (text : string) : text +:+ "" = text.
Proof.
  induction text as [|c text IH]; [reflexivity|].
  change (String c text +:+ "") with (String c (text +:+ "")). now rewrite IH.
Qed.

Lemma append_assoc_r (a b c : string) : (a +:+ b) +:+ c = a +:+ (b +:+ c).
Proof.
  induction a as [|x a IH]; [reflexivity|].
  change (String x ((a +:+ b) +:+ c) = String x (a +:+ (b +:+ c))).
  now rewrite IH.
Qed.

(** The accumulated body is the texts of the chunks, each decoded by
    itself, joined in the sequence the chunks came. *)
Lemma accumulate_joined chunks :
  accumulate chunks = String.concat "" (map Buffer_toString chunks).
Proof.
  unfold accumulate.
  assert (forall data,
            fold_left (fun data chunk => data +:+ Buffer_toString chunk) chunks data
            = data +:+ String.concat "" (map Buffer_toString chunks)) as H.
  { induction chunks as [|chunk [|next rest] IH]; intros data.
    - simpl. now rewrite append_empty_r.
    - reflexivity.
    - change (fold_left _ (chunk :: next :: rest) data)
        with (fold_left (fun data chunk => data +:+ Buffer_toString chunk)
                        (next :: rest) (data +:+ Buffer_toString chunk)).
      rewrite IH.
      change (String.concat "" (map Buffer_toString (chunk :: next :: rest)))
        with (Buffer_toString chunk +:+ ""
              +:+ String.concat "" (map Buffer_toString (next :: rest))).
      generalize (String.concat "" (map Buffer_toString (next :: rest))).
      intros joined.
      change ("" +:+ joined) with joined. apply append_assoc_r. }
  apply H.
Qed.

(** Chunks that are text by themselves are joined byte for byte. *)
Lemma accumulate_text chunks :
  Forall (fun chunk => Buffer_toString chunk = chunk) chunks ->
  accumulate chunks = String.concat "" chunks.
Proof.
  intros Htext. rewrite accumulate_joined. f_equal.
  induction Htext as [|chunk rest Hchunk _ IH]; [reflexivity|].
  simpl. now rewrite Hchunk, IH.
Qed.

(** [makeRoamRequest] is [makeHttpsRequest] on the options it builds. *)
Lemma makeRoamRequest_makeHttpsRequest config data budget w :
  makeRoamRequest https_request JSON_parse URL_new JSON_stringify config data budget w
  = makeHttpsRequest https_request JSON_parse URL_new
      (writeOptions config (JSON_stringify data) budget) (JSON_stringify data) budget w.
Proof. reflexivity. Qed.

(** A call settles by the listeners of its final response. *)
Lemma makeHttpsRequest_final opts payload budget w res chunks ending w' :
  FinalResponse https_request URL_new opts payload budget w res chunks ending w' ->
  makeHttpsRequest https_request JSON_parse URL_new opts payload budget w
  = (match ending with
     | EndEvent => onEnd JSON_parse res (accumulate chunks)
     | Broken f => onFailure f
     | Aborted => Pending
     end, w').
Proof.
  intros Hfinal. unfold makeHttpsRequest.
  destruct Hfinal as [res chunks ending w1 Hreq Hstatus
                     |res0 chunks0 ending0 w1 url res chunks ending w2
                        Hreq Hstatus Hurl Hreq2];
    unfold isRedirect in Hstatus; rewrite Hreq, Hstatus.
  - now destruct ending.
  - rewrite Hurl, Hreq2. now destruct ending.
Qed.

(** The world a followed redirect ends in is the world after the second
    request. *)
Lemma makeHttpsRequest_redirected opts payload budget w res chunks ending w1 url :
  https_request opts payload w = (Response res chunks ending, w1) ->
  isRedirect (statusCode res) = true ->
  locationURL URL_new res = inr url ->
  snd (makeHttpsRequest https_request JSON_parse URL_new opts payload budget w)
  = snd (https_request (redirectOptions url opts budget) payload w1).
Proof.
  intros Hreq Hstatus Hurl. unfold makeHttpsRequest.
  unfold isRedirect in Hstatus. rewrite Hreq, Hstatus, Hurl.
  destruct (https_request (redirectOptions url opts budget) payload w1)
    as [[f|res2 chunks2 [|f|]] w2]; reflexivity.
Qed.

End ClientFacts.

(** ** The specification of the request helper *)
Section ClientSpec.

Import HttpsClient CreatePages.

Context {World : Type}.
Variable https_request : RequestOptions -> string -> World -> Exchange * World.
Variable JSON_parse : string -> option JSON.
Variable URL_new : string -> option URL.
Variable JSON_stringify : JSON -> string.


(** C3, as the code has it: the redirect request is sent with a timeout
    of its own, the full configured value, whatever time the first request
    took.  When every request is over within its own timeout, a call that
    follows a redirect is over within the sum of the two timeouts; for
    [makeRoamRequest], whose first request carries the same value, within
    twice the configured timeout. *)
Theorem redirect_request_has_its_own_timeout (now : World -> Z)
    opts payload budget w res chunks ending w1 redirectUrl :
  honoursTimeout https_request now ->
  https_request opts payload w = (Response res chunks ending, w1) ->
  isRedirect (statusCode res) = true ->
  locationURL URL_new res = inr redirectUrl ->
  timeout (redirectOptions redirectUrl opts budget) = budget
  /\ snd (makeHttpsRequest https_request JSON_parse URL_new opts payload budget w)
     = snd (https_request (redirectOptions redirectUrl opts budget) payload w1)
  /\ now (snd (makeHttpsRequest https_request JSON_parse URL_new opts payload budget w))
     - now w <= timeout opts + budget
  /\ (forall config data,
        opts = writeOptions config (JSON_stringify data) budget ->
        payload = JSON_stringify data ->
        now (snd (makeRoamRequest https_request JSON_parse URL_new JSON_stringify
                    config data budget w))
        - now w <= 2 * budget).
Proof.
  intros Hhonours Hreq Hstatus Hurl.
  pose proof (makeHttpsRequest_redirected https_request JSON_parse URL_new
                opts payload budget w res chunks ending w1 redirectUrl
                Hreq Hstatus Hurl) as Hsnd.
  assert (now (snd (makeHttpsRequest https_request JSON_parse URL_new
                      opts payload budget w)) - now w
          <= timeout opts + budget) as Hbound.
  { rewrite Hsnd.
    pose proof (Hhonours opts payload w) as H1. rewrite Hreq in H1. simpl in H1.
    pose proof (Hhonours (redirectOptions redirectUrl opts budget) payload w1) as H2.
    simpl in H2. lia. }
  split; [reflexivity|]. split; [exact Hsnd|]. split; [exact Hbound|].
  intros config data Hopts Hpayload.
  rewrite makeRoamRequest_makeHttpsRequest. rewrite <- Hopts, <- Hpayload.
  assert (timeout opts = budget) as Ht by now rewrite Hopts.
  lia.
Qed.

(** Where [JSON.parse] throws: when the final response has status 200 and
    a body that is not empty and that [JSON.parse] refuses, the
    [SyntaxError] leaves the ['end'] listener; [reject] is not called and
    nothing is resolved.  The same holds of [makeRoamRequest]. *)
Lemma makeHttpsRequest_invalid_json opts payload budget w res chunks w' :
  FinalResponse https_request URL_new opts payload budget w res chunks EndEvent w' ->
  statusCode res = 200 ->
  accumulate chunks <> "" ->
  JSON_parse (accumulate chunks) = None ->
  makeHttpsRequest https_request JSON_parse URL_new opts payload budget w
  = (Throws (SyntaxError (accumulate chunks)), w')
  /\ (forall config data,
        opts = writeOptions config (JSON_stringify data) budget ->
        payload = JSON_stringify data ->
        makeRoamRequest https_request JSON_parse URL_new JSON_stringify
          config data budget w
        = (Throws (SyntaxError (accumulate chunks)), w')).
Proof.
  intros Hfinal Hstatus Hbody Hparse.
  assert (makeHttpsRequest https_request JSON_parse URL_new opts payload budget w
          = (Throws (SyntaxError (accumulate chunks)), w')) as H.
  { rewrite (makeHttpsRequest_final _ JSON_parse _ _ _ _ _ _ _ _ _ Hfinal).
    unfold onEnd. rewrite Hstatus, Hparse.
    apply String.eqb_neq in Hbody. now rewrite Hbody. }
  split; [exact H|].
  intros config data Hopts Hpayload.
  rewrite makeRoamRequest_makeHttpsRequest. now rewrite <- Hopts, <- Hpayload.
Qed.

(** C6: when the final response has status 200 and an empty body, the call
    resolves with status 200 and the empty object; [JSON.parse] is not
    consulted.  The same holds of [makeRoamRequest]. *)
Theorem makeHttpsRequest_empty_body opts payload budget w res chunks w' :
  FinalResponse https_request URL_new opts payload budget w res chunks EndEvent w' ->
  statusCode res = 200 ->
  accumulate chunks = "" ->
  makeHttpsRequest https_request JSON_parse URL_new opts payload budget w
  = (Resolves 200 (JObject []), w')
  /\ (forall config data,
        opts = writeOptions config (JSON_stringify data) budget ->
        payload = JSON_stringify data ->
        makeRoamRequest https_request JSON_parse URL_new JSON_stringify
          config data budget w
        = (Resolves 200 (JObject []), w')).
Proof.
  intros Hfinal Hstatus Hbody.
  assert (makeHttpsRequest https_request JSON_parse URL_new opts payload budget w
          = (Resolves 200 (JObject []), w')) as H.
  { rewrite (makeHttpsRequest_final _ JSON_parse _ _ _ _ _ _ _ _ _ Hfinal).
    unfold onEnd. now rewrite Hstatus, Hbody. }
  split; [exact H|].
  intros config data Hopts Hpayload.
  rewrite makeRoamRequest_makeHttpsRequest. now rewrite <- Hopts, <- Hpayload.
Qed.


End ClientSpec.

(** ** The title of the daily note *)
Section TitleSpec.

Import WriteContent.

(** C10: for a date with month [m] (counted from 0, so that 0 is January
    and 11 is December) and day [d], the title is the English name of that
    month, a space, the day, its suffix, a comma and a space, and the
    year; the suffix is th for the days 11 to 13, and otherwise st, nd, rd
    or th as the last digit of the day is 1, 2, 3 or another digit. *)
Theorem getTodayRoamTitle_format (now : Date) :
  validDate now ->
  exists monthName suffix,
    [ "January"; "February"; "March"; "April"; "May"; "June"; "July";
      "August"; "September"; "October"; "November"; "December" ]
      !! getMonth now = Some monthName
    /\ getTodayRoamTitle now
       = monthName +:+ " " +:+ pretty (getDate now) +:+ suffix +:+ ", "
         +:+ pretty (getFullYear now)
    /\ (11 <= getDate now <= 13 -> suffix = "th")
    /\ (~ 11 <= getDate now <= 13 ->
        (getDate now mod 10 = 1 -> suffix = "st")
        /\ (getDate now mod 10 = 2 -> suffix = "nd")
        /\ (getDate now mod 10 = 3 -> suffix = "rd")
        /\ (getDate now mod 10 <> 1 -> getDate now mod 10 <> 2 ->
            getDate now mod 10 <> 3 -> suffix = "th")).
Proof.
  intros [Hmonth Hday].
  assert (exists monthName,
            [ "January"; "February"; "March"; "April"; "May"; "June"; "July";
              "August"; "September"; "October"; "November"; "December" ]
              !! getMonth now = Some monthName
            /\ months !! getMonth now = Some monthName) as (monthName & Hname & Hcode).
  { destruct (getMonth now) as [|[|[|[|[|[|[|[|[|[|[|[|m]]]]]]]]]]]];
      try (eexists; split; reflexivity).
    lia. }
  exists monthName, (getOrdinalSuffix (getDate now)).
  split; [exact Hname|]. split.
  { unfold getTodayRoamTitle. now rewrite Hcode. }
  unfold getOrdinalSuffix.
  rewrite Z.rem_mod_nonneg by lia.
  split.
  - intros Hteen.
    replace (getDate now >=? 11) with true by (symmetry; apply Z.geb_le; lia).
    replace (getDate now <=? 13) with true by (symmetry; apply Z.leb_le; lia).
    reflexivity.
  - intros Hteen.
    assert ((getDate now >=? 11) && (getDate now <=? 13) = false) as ->.
    { apply andb_false_iff.
      destruct (Z.geb_spec (getDate now) 11); [right|left; reflexivity].
      apply Z.leb_gt. lia. }
    pose proof (Z.mod_pos_bound (getDate now) 10 ltac:(lia)) as Hdigit.
    destruct (getDate now mod 10) as [|[[|[]|]|[|[]|]|]|]; repeat split;
      intros; try reflexivity; try lia; try discriminate; try contradiction.
Qed.

End TitleSpec.

(* ===================================================================== *)
(** * Part III: the examples of the specification                         *)
(* ===================================================================== *)

Section Runs.

Import HttpsClient ReadContent WriteContent Examples.

(** The mock responders answer every request within its timeout. *)
Lemma network_honoursTimeout peers : honoursTimeout (network peers) clock.
Proof.
  intros opts body w. unfold network.
  destruct (default _ (peers !! hostname opts)) as [latency exchange].
  destruct (Z.ltb_spec (timeout opts) latency); simpl; lia.
Qed.

(** The example of the specification: children returned as b, a come out
    as a, b. *)
Example buildBlockTree_outOfOrder :
  buildBlockTree (graphQuery outOfOrder) config "page" 0 10 []
  = (Fulfilled outOfOrderTree, ["page"; "a"; "a1"; "a2"; "a3"; "b"]).
Proof. vm_compute. reflexivity. Qed.

Lemma buildBlockTree_sorted_outOfOrder :
  buildBlockTree (graphQuery outOfOrder) config "page" 0 10 []
  = (Fulfilled outOfOrderTree, ["page"; "a"; "a1"; "a2"; "a3"; "b"])
  /\ map block_uid outOfOrderTree = ["a"; "b"]
  /\ sortedAtEveryLevel outOfOrderTree = true.
Proof.
  split; [exact buildBlockTree_outOfOrder|]. split; [reflexivity|].
  exact (buildBlockTree_sorted _ _ _ _ _ _ _ _ buildBlockTree_outOfOrder).
Defined.

(** A chain without end, cut at [maxDepth = 3], has three levels; cut at
    0 it is empty and nothing is queried. *)
Example chainOfThree_levels : treeDepth chainOfThree = 3%nat.
Proof. reflexivity. Qed.

Lemma buildBlockTree_depth_bound_chain :
  buildBlockTree chainQuery config "n" 0 3 [] = (Fulfilled chainOfThree, ["n"; "n+"; "n++"])
  /\ Z.of_nat (treeDepth chainOfThree) <= 3
  /\ buildBlockTree chainQuery config "n" 0 0 [] = (Fulfilled [], []).
Proof.
  assert (buildBlockTree chainQuery config "n" 0 3 []
          = (Fulfilled chainOfThree, ["n"; "n+"; "n++"])) as H
    by (vm_compute; reflexivity).
  split; [exact H|]. split.
  - exact (proj1 (buildBlockTree_depth_bound chainQuery config "n" 3 []
                    ltac:(discriminate)) _ _ H).
  - exact (proj2 (buildBlockTree_depth_bound chainQuery config "n" 0 []
                    ltac:(discriminate)) eq_refl).
Defined.

(** The traversal of [brokenGrandchild] stops at the grandchild whose
    children cannot be fetched, and rejects with its error. *)
Lemma buildBlockTree_fails_at_grandchild :
  buildBlockTree (graphQuery brokenGrandchild) config "page" 0 10 []
  = (Rejected "HTTP 500", ["page"; "c1"; "g1"]).
Proof.
  destruct (buildBlockTree_fails_with_first_error
              (graphQuery brokenGrandchild) config "page" 0 10 [])
    as (calls & Hrun & Hfail & _).
  assert (calls = [ (["page"], Fulfilled [("c2", "two", 1); ("c1", "one", 0)]);
                    (["c1"], Fulfilled [("g1", "deep", 0); ("g2", "deeper", 1)]);
                    (["g1"], Rejected "HTTP 500") ]) as Hcalls.
  { vm_compute in Hrun. now inversion Hrun. }
  destruct (Hfail ["g1"] "HTTP 500") as [Hrejected _].
  { rewrite Hcalls. right. right. now left. }
  rewrite (surjective_pairing (buildBlockTree _ _ _ _ _ _)), Hrejected.
  reflexivity.
Defined.

(** The rows b, a of the page are fetched sorted, and the blocks of the
    tree below the page are the children fetched, in their sequence. *)
Lemma fetchChildren_establishes_order_outOfOrder :
  (exists children,
     fetchChildren (graphQuery outOfOrder) config "page" []
     = (Fulfilled children, ["page"])
     /\ ascending (map child_order children) = true
     /\ Permutation children
          (map toChild [("b", "second", 2); ("a", "first", 1)]))
  /\ (exists children w1,
        fetchChildren (graphQuery outOfOrder) config "page" []
        = (Fulfilled children, w1)
        /\ map blockHead outOfOrderTree = children).
Proof.
  split.
  - exact (proj1 (fetchChildren_establishes_order
                    (graphQuery outOfOrder) config "page" [])
                 [("b", "second", 2); ("a", "first", 1)] ["page"] eq_refl).
  - exact (proj2 (fetchChildren_establishes_order
                    (graphQuery outOfOrder) config "page" [])
                 0 10 outOfOrderTree ["page"; "a"; "a1"; "a2"; "a3"; "b"]
                 eq_refl buildBlockTree_outOfOrder).
Defined.

Example fetchChildren_outOfOrder :
  fetchChildren (graphQuery outOfOrder) config "page" []
  = (Fulfilled [mkChild "a" "first" 1; mkChild "b" "second" 2], ["page"]).
Proof. reflexivity. Qed.


(** Both hops of [movedOnce] take 20 s under a timeout of 30 s: the call
    is over after 40 s, within twice the timeout. *)
Lemma redirect_request_has_its_own_timeout_runs :
  timeout (redirectOptions (mkURL "host2" "" "/path2" "") (queryOptions payload) 30000)
  = 30000
  /\ clock (snd (makeHttpsRequest (network movedOnce) Reference.JSON_parse
                   Reference.URL_new (queryOptions payload) payload 30000 startOfDay))
     - clock startOfDay <= 30000 + 30000.
Proof.
  destruct (redirect_request_has_its_own_timeout
              (network movedOnce) Reference.JSON_parse Reference.URL_new
              Reference.JSON_stringify clock
              (queryOptions payload) payload 30000 startOfDay
              (moved "https://host2/path2") [] EndEvent _
              (mkURL "host2" "" "/path2" "")
              (network_honoursTimeout movedOnce) eq_refl eq_refl eq_refl)
    as (Hown & _ & Hbound & _).
  split; [exact Hown | exact Hbound].
Defined.

(** C3 as stated fails: under one configured timeout of 30 s, with every
    request over within its own timeout, the call that follows the redirect
    of [movedOnce] succeeds after 40 s. *)
Lemma shared_timeout_budget_counterexample :
  honoursTimeout (network movedOnce) clock
  /\ timeout (queryOptions payload) = 30000
  /\ fst (makeHttpsRequest (network movedOnce) Reference.JSON_parse
            Reference.URL_new (queryOptions payload) payload 30000 startOfDay)
     = Resolves 200 (JObject [("result", JArray [])])
  /\ clock (snd (makeHttpsRequest (network movedOnce) Reference.JSON_parse
                   Reference.URL_new (queryOptions payload) payload 30000 startOfDay))
     - clock startOfDay = 40000
  /\ 30000 < 40000.
Proof.
  split; [apply network_honoursTimeout|].
  repeat split; vm_compute; reflexivity.
Qed.

(** C4, a defect of the code: status 200 and the body [not json].
    [JSON.parse] throws inside the ['end'] listener, which calls neither
    [resolve] nor [reject]: the call does not end in a rejection, and the
    [catch] of a caller that awaits it is not run, whatever it is; the
    exception ends the process.  With the same body and status 500 the
    listener calls [reject], as the ['error'] and ['timeout'] listeners
    do. *)
Theorem invalid_json_is_not_propagated :
  makeHttpsRequest (network (answering 200 ["not"; " json"])) Reference.JSON_parse
    Reference.URL_new (queryOptions payload) payload 30000 startOfDay
  = (Throws (SyntaxError "not json"), after 50 (queryOptions payload) startOfDay)
  /\ (forall handler : Rejection -> Script.t Net (Z * JSON),
        Script.tryCatch
          (Script.request
             (makeHttpsRequest (network (answering 200 ["not"; " json"]))
                Reference.JSON_parse Reference.URL_new
                (queryOptions payload) payload 30000))
          handler (Script.mkProcess startOfDay [])
        = (Rejected (Script.Uncaught (SyntaxError "not json")),
           Script.mkProcess (after 50 (queryOptions payload) startOfDay) []))
  /\ makeHttpsRequest (network (answering 500 ["not"; " json"])) Reference.JSON_parse
       Reference.URL_new (queryOptions payload) payload 30000 startOfDay
     = (Rejects (HttpFailure 500 "not json"),
        after 50 (queryOptions payload) startOfDay).
Proof.
  assert (makeHttpsRequest (network (answering 200 ["not"; " json"]))
            Reference.JSON_parse Reference.URL_new
            (queryOptions payload) payload 30000 startOfDay
          = (Throws (SyntaxError "not json"),
             after 50 (queryOptions payload) startOfDay)) as Hthrown.
  { refine (proj1 (makeHttpsRequest_invalid_json
                     (network (answering 200 ["not"; " json"])) Reference.JSON_parse
                     Reference.URL_new Reference.JSON_stringify
                     (queryOptions payload) payload 30000 startOfDay
                     (status 200) ["not"; " json"] _ _ eq_refl _ eq_refl)).
    - now apply final_direct.
    - discriminate. }
  split; [exact Hthrown|]. split.
  - intros handler. unfold Script.tryCatch, Script.request.
    change (Script.net (Script.mkProcess startOfDay [])) with startOfDay.
    now rewrite Hthrown.
  - vm_compute. reflexivity.
Qed.

(** Status 200 and no body: the call resolves with the empty object. *)
Lemma makeHttpsRequest_empty_body_runs :
  makeHttpsRequest (network (answering 200 [])) Reference.JSON_parse
    Reference.URL_new (queryOptions payload) payload 30000 startOfDay
  = (Resolves 200 (JObject []), after 50 (queryOptions payload) startOfDay).
Proof.
  refine (proj1 (makeHttpsRequest_empty_body
                   (network (answering 200 [])) Reference.JSON_parse
                   Reference.URL_new Reference.JSON_stringify
                   (queryOptions payload) payload 30000 startOfDay
                   (status 200) [] _ _ eq_refl eq_refl)).
  now apply final_direct.
Defined.



(** The comment of the source: "Roam uses: February 5th, 2026". *)
Example getTodayRoamTitle_february_5th :
  getTodayRoamTitle (mkDate 1 5 2026) = "February 5th, 2026".
Proof. reflexivity. Qed.

Example getTodayRoamTitle_suffixes :
  map (fun day => getOrdinalSuffix day)
      [1; 2; 3; 4; 10; 11; 12; 13; 14; 20; 21; 22; 23; 24; 30; 31]
  = ["st"; "nd"; "rd"; "th"; "th"; "th"; "th"; "th"; "th"; "th"; "st"; "nd";
     "rd"; "th"; "th"; "st"].
Proof. reflexivity. Qed.

Lemma getTodayRoamTitle_format_runs :
  validDate (mkDate 10 3 2026)
  /\ getTodayRoamTitle (mkDate 10 3 2026) = "November 3rd, 2026".
Proof.
  assert (validDate (mkDate 10 3 2026)) as Hvalid by (unfold validDate; simpl; lia).
  split; [exact Hvalid|].
  destruct (getTodayRoamTitle_format (mkDate 10 3 2026) Hvalid)
    as (monthName & suffix & Hname & Htitle & _ & Hsuffix).
  injection Hname as <-.
  destruct Hsuffix as (_ & _ & Hrd & _); [simpl; lia|].
  rewrite Htitle, (Hrd eq_refl). reflexivity.
Defined.

End Runs.

(* ===================================================================== *)
(** * Part IV: the rest of the scripts                                    *)
(* ===================================================================== *)

(** ** Text *)
Section TextFacts.

Lemma concat_empty_cons (text : string) (texts : list string) :
  String.concat "" (text :: texts) = text +:+ String.concat "" texts.
Proof.
  destruct texts as [|next texts].
  - simpl. now rewrite append_empty_r.
  - reflexivity.
Qed.

Lemma concat_empty_app (xs ys : list string) :
  String.concat "" (xs ++ ys) = String.concat "" xs +:+ String.concat "" ys.
Proof.
  induction xs as [|x xs IH].
  - reflexivity.
  - change ((x :: xs) ++ ys) with (x :: (xs ++ ys)).
    rewrite !concat_empty_cons, IH. now rewrite append_assoc_r.
Qed.

(** A loop [output += f(item)] joins the texts of the items. *)
Lemma fold_left_append {A} (f : A -> string) (items : list A) (output : string) :
  fold_left (fun output item => output +:+ f item) items output
  = output +:+ String.concat "" (map f items).
Proof.
  revert output. induction items as [|item items IH]; intros output.
  - simpl. now rewrite append_empty_r.
  - cbn [fold_left map]. rewrite IH, concat_empty_cons.
    now rewrite append_assoc_r.
Qed.

End TextFacts.

(** ** Printing a tree *)
Section OutputFacts.

Import ReadContent ReadOutput.

(** Induction on a block, with the property at hand for its children. *)
Lemma Block_nested_ind (P : Block -> Prop) :
  (forall uid text order children,
      Forall P children -> P (mkBlock uid text order children)) ->
  forall block, P block.
Proof.
  intros H. fix IH 1. intros [uid text order children].
  apply H. induction children as [|child children IHchildren].
  - constructor.
  - constructor; [apply IH | exact IHchildren].
Qed.

(** [formatBlockTree] satisfies the recursive equation of the source. *)
Lemma formatBlockTree_unfold blocks indent :
  formatBlockTree blocks indent =
  fold_left
    (fun output block =>
       let output := output +:+ (spaces indent +:+ "- " +:+ block_string block
                                 +:+ newline) in
       if (0 <? length (block_children block))%nat
       then output +:+ formatBlockTree (block_children block) (indent + 1)
       else output)
    blocks "".
Proof.
  unfold formatBlockTree at 1.
  enough (forall output,
            fold_left (fun output block => output +:+ formatBlock indent block)
                      blocks output
            = fold_left
                (fun output block =>
                   let output := output +:+ (spaces indent +:+ "- "
                                             +:+ block_string block +:+ newline) in
                   if (0 <? length (block_children block))%nat
                   then output +:+ formatBlockTree (block_children block) (indent + 1)
                   else output)
                blocks output) as H by apply H.
  induction blocks as [|block blocks IH]; intros output.
  - reflexivity.
  - cbn [fold_left]. rewrite IH. f_equal.
    destruct block as [uid text order [|child children]]; cbn.
    + now rewrite append_empty_r.
    + replace (indent + 1)%nat with (S indent) by lia.
      now rewrite !append_assoc_r.
Qed.

Lemma formatBlock_outline block : forall indent,
  formatBlock indent block
  = String.concat "" (map outlineLine (outlineBlock indent block)).
Proof.
  induction block as [uid text order children IH] using Block_nested_ind.
  intros indent. cbn [formatBlock outlineBlock map block_children block_string].
  rewrite concat_empty_cons. unfold outlineLine at 1. cbn [fst snd].
  f_equal.
  assert (fold_left (fun output child => output +:+ formatBlock (S indent) child)
                    children ""
          = String.concat ""
              (map outlineLine (flat_map (outlineBlock (S indent)) children)))
    as Hchildren.
  { rewrite fold_left_append.
    change ("" +:+ ?x) with x.
    clear -IH. induction IH as [|child children Hchild _ IHrest].
    - reflexivity.
    - cbn [map flat_map]. rewrite concat_empty_cons, map_app, concat_empty_app.
      now rewrite Hchild, IHrest. }
  destruct children as [|child children]; [reflexivity | exact Hchildren].
Qed.

(** X1: the text of a tree has one line per block, in the sequence of a
    reader (a block, what is below it, its next sibling); the line of a
    block at depth [d] below the top is [2 * (indent + d)] spaces, a dash,
    a space and the text of the block. *)
Theorem formatBlockTree_outline blocks indent :
  formatBlockTree blocks indent
  = String.concat "" (map outlineLine (outline indent blocks)).
Proof.
  unfold formatBlockTree, outline. rewrite fold_left_append.
  change ("" +:+ ?x) with x.
  induction blocks as [|block blocks IH].
  - reflexivity.
  - cbn [map flat_map]. rewrite concat_empty_cons, map_app, concat_empty_app.
    now rewrite formatBlock_outline, IH.
Qed.

Lemma outlineBlock_depths block : forall depth,
  Forall (fun entry => (depth <= fst entry < depth + blockLevels block)%nat)
         (outlineBlock depth block).
Proof.
  induction block as [uid text order children IH] using Block_nested_ind.
  intros depth. cbn [outlineBlock blockLevels block_children block_string].
  constructor; [simpl; lia|].
  induction IH as [|child children Hchild _ IHrest].
  - constructor.
  - cbn [flat_map map list_max]. apply Forall_app. split.
    + eapply Forall_impl; [apply (Hchild (S depth))|].
      intros entry Hentry. simpl in *. lia.
    + eapply Forall_impl; [apply IHrest|].
      intros entry Hentry. simpl in *. lia.
Qed.

Lemma outline_depths blocks depth :
  Forall (fun entry => (depth <= fst entry < depth + treeDepth blocks)%nat)
         (outline depth blocks).
Proof.
  unfold outline, treeDepth. induction blocks as [|block blocks IH].
  - constructor.
  - cbn [flat_map map list_max]. apply Forall_app. split.
    + eapply Forall_impl; [apply outlineBlock_depths|].
      intros entry Hentry. simpl in *. lia.
    + eapply Forall_impl; [apply IH|].
      intros entry Hentry. simpl in *. lia.
Qed.

End OutputFacts.

Section PageText.

Import ReadContent ReadOutput.

Context {World E : Type}.
Variable runQuery : Config -> string -> list string -> Async.t World E (list Row).

Lemma lines_line (line rest : string) :
  hasLineBreak line = false ->
  lines (line +:+ newline +:+ rest) = line :: lines rest.
Proof.
  induction line as [|c line IH]; intros Hline; [reflexivity|].
  cbn [hasLineBreak] in Hline. apply orb_false_iff in Hline as [Hc Hline].
  change (String c line +:+ newline +:+ rest)
    with (String c (line +:+ newline +:+ rest)).
  cbn [lines]. now rewrite Hc, IH.
Qed.

Lemma hasLineBreak_app (a b : string) :
  hasLineBreak (a +:+ b) = hasLineBreak a || hasLineBreak b.
Proof.
  induction a as [|c a IH]; [reflexivity|].
  change (String c a +:+ b) with (String c (a +:+ b)).
  cbn [hasLineBreak]. now rewrite IH, orb_assoc.
Qed.

Lemma hasLineBreak_spaces indent : hasLineBreak (spaces indent) = false.
Proof.
  induction indent as [|indent IH]; [reflexivity|].
  cbn [spaces]. now rewrite hasLineBreak_app, IH.
Qed.

Lemma indentation_prefix indent (text : string) :
  indentation (spaces indent +:+ "- " +:+ text) = (2 * indent)%nat.
Proof.
  induction indent as [|indent IH]; [reflexivity|].
  change (spaces (S indent) +:+ "- " +:+ text)
    with (String " " (String " " (spaces indent +:+ "- " +:+ text))).
  cbn [indentation Ascii.eqb Bool.eqb]. rewrite IH. lia.
Qed.

(** The lines of the text of an outline without line breaks in its block
    strings: one for each entry, and the empty rest after the last
    break. *)
Lemma lines_outline (entries : list (nat * string)) :
  Forall (fun entry => hasLineBreak (snd entry) = false) entries ->
  lines (String.concat "" (map outlineLine entries))
  = map (fun entry => spaces (fst entry) +:+ "- " +:+ snd entry) entries ++ [""].
Proof.
  induction 1 as [|entry entries Hentry _ IH]; [reflexivity|].
  cbn [map app]. rewrite concat_empty_cons. unfold outlineLine at 1.
  replace ((spaces (fst entry) +:+ "- " +:+ snd entry +:+ newline)
           +:+ String.concat "" (map outlineLine entries))
    with ((spaces (fst entry) +:+ "- " +:+ snd entry)
          +:+ newline +:+ String.concat "" (map outlineLine entries))
    by (now rewrite !append_assoc_r).
  rewrite lines_line.
  - now rewrite IH.
  - rewrite !hasLineBreak_app, hasLineBreak_spaces. exact Hentry.
Qed.

(** X2: when no block string holds a line break, the text of a tree that
    [buildBlockTree] fetched from depth 0 with [maxDepth >= 0] has one
    line for each block, in the sequence of a reader, and after the last
    line break nothing; and no line begins with more than
    [2 * (maxDepth - 1)] spaces. *)
Theorem fetched_tree_indentation config parentUid maxDepth w blocks w' :
  0 <= maxDepth ->
  buildBlockTree runQuery config parentUid 0 maxDepth w = (Fulfilled blocks, w') ->
  Forall (fun entry => hasLineBreak (snd entry) = false) (outline 0 blocks) ->
  lines (formatBlockTree blocks 0)
  = map (fun entry => spaces (fst entry) +:+ "- " +:+ snd entry) (outline 0 blocks)
    ++ [""]
  /\ Forall (fun line =>
               line = "" \/ Z.of_nat (indentation line) <= 2 * (maxDepth - 1))
            (lines (formatBlockTree blocks 0)).
Proof.
  intros Hmax Hbuild Hbreaks.
  assert (lines (formatBlockTree blocks 0)
          = map (fun entry => spaces (fst entry) +:+ "- " +:+ snd entry)
                (outline 0 blocks) ++ [""]) as Hlines.
  { rewrite formatBlockTree_outline. now apply lines_outline. }
  split; [exact Hlines|]. rewrite Hlines.
  apply Forall_app. split; [|constructor; [now left|constructor]].
  apply List.Forall_map.
  unfold buildBlockTree in Hbuild. apply buildLevels_depth in Hbuild.
  eapply Forall_impl; [apply outline_depths|].
  intros entry [_ Hentry]. right. rewrite indentation_prefix.
  simpl in Hentry. lia.
Qed.

End PageText.

(** ** Titles *)
Section TitleFacts.

Import JS.

Lemma Set_from_snoc items item :
  Set_from (items ++ [item]) = Set_add (Set_from items) item.
Proof. unfold Set_from. now rewrite fold_left_app. Qed.

Lemma Set_add_elem_of set item x :
  x ∈ Set_add set item <-> x ∈ set \/ x = item.
Proof.
  unfold Set_add. destruct (decide (item ∈ set)) as [Hin|Hout].
  - split; [now left | intros [H | ->]; assumption].
  - rewrite elem_of_app, list_elem_of_singleton. reflexivity.
Qed.

Lemma Set_from_elem_of items x : x ∈ Set_from items <-> x ∈ items.
Proof.
  induction items as [|item items IH] using rev_ind.
  - reflexivity.
  - rewrite Set_from_snoc, Set_add_elem_of, IH, elem_of_app,
      list_elem_of_singleton. reflexivity.
Qed.

Lemma Set_from_NoDup items : NoDup (Set_from items).
Proof.
  induction items as [|item items IH] using rev_ind.
  - constructor.
  - rewrite Set_from_snoc. unfold Set_add.
    destruct (decide (item ∈ Set_from items)) as [Hin|Hout]; [assumption|].
    apply NoDup_app. split; [assumption|]. split.
    + intros x Hx Hx'. apply list_elem_of_singleton in Hx'. now subst.
    + apply NoDup_singleton.
Qed.

Lemma Set_from_sublist items : sublist (Set_from items) items.
Proof.
  induction items as [|item items IH] using rev_ind.
  - constructor.
  - rewrite Set_from_snoc. unfold Set_add.
    destruct (decide (item ∈ Set_from items)) as [Hin|Hout].
    + now apply sublist_inserts_r.
    + now apply sublist_app.
Qed.

(** Adding to a set that is not empty: what it holds stays in front, and
    of the new items the ones it does not hold follow, in the sequence of
    their first occurrence. *)
Lemma Set_from_onto items : forall set,
  fold_left Set_add items set
  = set ++ filter (fun x => x ∉ set) (Set_from items).
Proof.
  induction items as [|item items IH] using rev_ind; intros set.
  - simpl. now rewrite app_nil_r.
  - rewrite fold_left_app. cbn [fold_left]. rewrite IH, Set_from_snoc.
    unfold Set_add.
    destruct (decide (item ∈ Set_from items)) as [Hin|Hout].
    + rewrite decide_True; [reflexivity|].
      apply elem_of_app.
      destruct (decide (item ∈ set)) as [Hset|Hset]; [now left | right].
      now apply list_elem_of_filter.
    + rewrite filter_app.
      destruct (decide (item ∈ set)) as [Hset|Hset].
      * rewrite decide_True by (apply elem_of_app; now left).
        rewrite (filter_cons_False _ item []) by (intros H; now apply H).
        now rewrite app_nil_r.
      * rewrite decide_False.
        -- rewrite filter_cons_True by assumption. now rewrite app_assoc.
        -- rewrite elem_of_app, list_elem_of_filter. tauto.
Qed.

(** X3: the titles [main] works on hold every given title once: no title
    twice, no title lost or invented, in the sequence the titles were
    given; a title stays where it first occurs. *)
Theorem uniqueTitles_first_occurrences titles :
  NoDup (Set_from titles)
  /\ (forall title, title ∈ Set_from titles <-> title ∈ titles)
  /\ sublist (Set_from titles) titles
  /\ (forall title rest,
        titles = title :: rest ->
        Set_from titles = title :: filter (fun x => x <> title) (Set_from rest)).
Proof.
  split; [apply Set_from_NoDup|]. split; [intros; apply Set_from_elem_of|].
  split; [apply Set_from_sublist|].
  intros title rest ->. unfold Set_from at 1. cbn [fold_left].
  change (Set_add [] title) with [title]. rewrite Set_from_onto.
  cbn [app]. f_equal. apply list_filter_iff. intros x.
  rewrite list_elem_of_singleton. reflexivity.
Qed.

Lemma escapeQuotes_head title :
  match escapeQuotes title with
  | String c _ => c <> "034"%char
  | EmptyString => title = EmptyString
  end.
Proof.
  destruct title as [|c rest]; [reflexivity|]. cbn [escapeQuotes].
  destruct (Ascii.eqb_spec c "034"); [discriminate | assumption].
Qed.

Lemma unescape_escape title : unescapeQuotes (escapeQuotes title) = title.
Proof.
  induction title as [|c rest IH]; [reflexivity|].
  cbn [escapeQuotes].
  destruct (Ascii.eqb_spec c "034") as [->|Hc].
  - cbn [unescapeQuotes]. cbn. now rewrite IH.
  - pose proof (escapeQuotes_head rest) as Hhead.
    cbn [unescapeQuotes].
    destruct (escapeQuotes rest) as [|d rest'] eqn:Hrest.
    + now subst rest.
    + replace ((d =? "034")%char) with false
        by (symmetry; now apply Ascii.eqb_neq).
      rewrite andb_false_r. now rewrite IH.
Qed.

(** X4: in the title as [queryPageUid] puts it between the quotes of its
    query, every double quote follows a backslash that was put there for
    it, and nothing else is changed: dropping these backslashes gives the
    title back, and a title without double quotes is put there as it is.
    (A backslash of the title is copied, not doubled.) *)
Theorem escapeQuotes_marks_every_quote title :
  unescapeQuotes (escapeQuotes title) = title
  /\ (forall i,
        String.get i (escapeQuotes title) = Some "034"%char ->
        exists j, i = S j /\ String.get j (escapeQuotes title) = Some "\"%char)
  /\ ((forall i, String.get i title <> Some "034"%char) ->
      escapeQuotes title = title).
Proof.
  split; [apply unescape_escape|]. split.
  - induction title as [|c rest IH]; intros i.
    + destruct i; discriminate.
    + cbn [escapeQuotes]. destruct (Ascii.eqb_spec c "034") as [->|Hc].
      * destruct i as [|[|k]]; cbn [String.get].
        -- discriminate.
        -- intros _. now exists 0%nat.
        -- intros Hk. destruct (IH k Hk) as (j & -> & Hj).
          now exists (S (S j)).
      * destruct i as [|k]; cbn [String.get].
        -- intros H. inversion H. contradiction.
        -- intros Hk. destruct (IH k Hk) as (j & -> & Hj).
           now exists (S j).
  - induction title as [|c rest IH]; intros Hnone; [reflexivity|].
    cbn [escapeQuotes]. destruct (Ascii.eqb_spec c "034") as [->|Hc].
    + now destruct (Hnone 0%nat).
    + f_equal. apply IH. intros i. apply (Hnone (S i)).
Qed.

End TitleFacts.

(** ** The pages modified today *)
Section RecentFacts.

Import ReadOutput.

Lemma sortedInsert_ext {A} (f g : A -> A -> Z) :
  (forall a b, f a b = g a b) ->
  forall x l, sortedInsert f x l = sortedInsert g x l.
Proof.
  intros Hfg x l. induction l as [|y l IH]; [reflexivity|].
  cbn [sortedInsert]. now rewrite Hfg, IH.
Qed.

Lemma Array_sort_ext {A} (f g : A -> A -> Z) :
  (forall a b, f a b = g a b) ->
  forall l, Array_sort f l = Array_sort g l.
Proof.
  intros Hfg l. induction l as [|x l IH]; [reflexivity|].
  cbn [Array_sort fold_right]. fold (Array_sort f l) (Array_sort g l).
  rewrite IH. now apply sortedInsert_ext.
Qed.

Lemma Sorted_by_key_descending {A} (key : A -> Z) (l : list A) :
  Sorted Z.le (map (fun a => - key a) l) ->
  Sorted (fun a b => key b <= key a) l.
Proof.
  induction l as [|x l IH]; intros Hsorted; [constructor|].
  inversion Hsorted as [|? ? Hrest Hhd]; subst.
  constructor; [now apply IH|].
  destruct l as [|y l]; constructor.
  inversion Hhd; subst. lia.
Qed.

(** X5: the pages of [readModifiedToday] are listed latest edit first: the
    sorted rows are the rows of the query, each once, and no row comes
    before a row edited later; a row without an edit time counts as edited
    at time 0. *)
Theorem sortRecent_latest_first (result : list EditRow) :
  Permutation (sortRecent result) result
  /\ Sorted (fun a b => editTime b <= editTime a) (sortRecent result).
Proof.
  split; [apply Array_sort_Permutation|].
  unfold sortRecent.
  rewrite (Array_sort_ext compareRecent
             (fun a b => (- editTime a) - (- editTime b)))
    by (intros a b; unfold compareRecent; lia).
  apply Sorted_by_key_descending.
  apply (Array_sort_Sorted (fun row => - editTime row)).
Qed.

End RecentFacts.

(** ** Queries *)
Section QueryFacts.

Import HttpsClient JS Script Queries.

Context {World : Type}.
Variable https_request : RequestOptions -> string -> World -> Exchange * World.
Variable JSON_parse : string -> option JSON.
Variable URL_new : string -> option URL.
Variable JSON_stringify : JSON -> string.
Variable String_first : string -> string.
Variable greaterThanZero : JSON -> bool.
Variable typeError : Error.

(** How an awaited call of the request helper settles. *)
Lemma request_run (call : World -> Outcome * World) (p : Process World) :
  request call p
  = (match fst (call (net p)) with
     | Resolves statusCode data => Async.Fulfilled (statusCode, data)
     | Rejects reason => Async.Rejected (Raised reason)
     | Throws exn => Async.Rejected (Uncaught exn)
     | Pending => Async.Rejected Unsettled
     end,
     mkProcess (snd (call (net p))) (console p)).
Proof.
  unfold request. destruct (call (net p)) as [[statusCode data|reason|exn|] w];
    reflexivity.
Qed.

Lemma runQuery_run config query queryArgs p :
  runQuery https_request JSON_parse URL_new JSON_stringify config query queryArgs p
  = let payload := JSON_stringify (queryBody query queryArgs) in
    let call := makeHttpsRequest https_request JSON_parse URL_new
                  (queryOptions config payload) payload 30000 in
    (match fst (call (net p)) with
     | Resolves _ data => Async.Fulfilled (rowsOf data)
     | Rejects reason => Async.Rejected (Raised reason)
     | Throws exn => Async.Rejected (Uncaught exn)
     | Pending => Async.Rejected Unsettled
     end,
     mkProcess (snd (call (net p))) (console p)).
Proof.
  unfold runQuery, Async.bind. rewrite request_run. cbv zeta.
  destruct (fst (makeHttpsRequest _ _ _ _ _ _ _)) as [statusCode data|reason|exn|];
    try reflexivity.
  cbn [snd]. unfold rowsOf.
  destruct (member data "result") as [result|].
  - destruct (truthy (Some data) && truthy (Some result)); reflexivity.
  - rewrite andb_false_r. reflexivity.
Qed.

(** X6: what [runQuery] fulfils with is never [null], [undefined] or
    another falsy value: when the body of the response has no truthy
    [result], it is the empty array.  Its callers read [result.length]
    without a check. *)
Theorem runQuery_never_falsy config query queryArgs p result p' :
  runQuery https_request JSON_parse URL_new JSON_stringify config query queryArgs p
  = (Async.Fulfilled result, p') ->
  truthy (Some result) = true.
Proof.
  rewrite runQuery_run. cbv zeta.
  destruct (fst (makeHttpsRequest _ _ _ _ _ _ _)) as [statusCode data|reason|exn|];
    intros H; inversion H; subst.
  unfold rowsOf. destruct (member data "result") as [found|]; [|reflexivity].
  destruct (truthy (Some data) && truthy (Some found)) eqn:Htruthy; [|reflexivity].
  now apply andb_true_iff in Htruthy.
Qed.

(** X7: [runQuery] on the final response of its request.  Status 200 and
    an empty body: no rows.  Status 200 and a body that parses: its
    [result] when that is truthy, no rows otherwise.  Another status: the
    rejection [{ statusCode, message }] of the request, as it is.  Nothing
    is printed. *)
Theorem runQuery_final_response config query queryArgs p res chunks w' :
  FinalResponse https_request URL_new
    (queryOptions config (JSON_stringify (queryBody query queryArgs)))
    (JSON_stringify (queryBody query queryArgs)) 30000 (net p)
    res chunks EndEvent w' ->
  (statusCode res = 200 -> accumulate chunks = "" ->
   runQuery https_request JSON_parse URL_new JSON_stringify config query queryArgs p
   = (Async.Fulfilled (JArray []), mkProcess w' (console p)))
  /\ (forall data,
        statusCode res = 200 -> accumulate chunks <> "" ->
        JSON_parse (accumulate chunks) = Some data ->
        runQuery https_request JSON_parse URL_new JSON_stringify config query queryArgs p
        = (Async.Fulfilled (rowsOf data), mkProcess w' (console p)))
  /\ (statusCode res <> 200 ->
      runQuery https_request JSON_parse URL_new JSON_stringify config query queryArgs p
      = (Async.Rejected (Raised (HttpFailure (statusCode res) (accumulate chunks))),
         mkProcess w' (console p))).
Proof.
  intros Hfinal. rewrite runQuery_run. cbv zeta.
  rewrite (makeHttpsRequest_final _ JSON_parse _ _ _ _ _ _ _ _ _ Hfinal).
  cbn [fst snd]. unfold onEnd. repeat split.
  - intros -> ->. reflexivity.
  - intros data -> Hbody ->. apply String.eqb_neq in Hbody. now rewrite Hbody.
  - intros Hstatus. apply Z.eqb_neq in Hstatus. now rewrite Hstatus.
Qed.

(** X8: the [queryPageUid] of write-content.js, which reads the response
    itself, and the [queryPageUid] of read-content.js, which goes through
    [runQuery], send the same request and settle the same way on every
    answer. *)
Theorem queryPageUid_same_in_both_scripts config pageTitle p :
  queryPageUid_write https_request JSON_parse URL_new JSON_stringify
    String_first greaterThanZero typeError config pageTitle p
  = queryPageUid https_request JSON_parse URL_new JSON_stringify
      String_first greaterThanZero typeError config pageTitle p.
Proof.
  unfold queryPageUid, queryPageUid_write.
  unfold Async.bind at 4. rewrite runQuery_run. cbv zeta.
  unfold Async.bind at 1. rewrite request_run.
  change (queryBody (pageUidQuery pageTitle) None)
    with (JObject [("query", JString (pageUidQuery pageTitle))]).
  destruct (fst (makeHttpsRequest _ _ _ _ _ _ _)) as [statusCode data|reason|exn|];
    try reflexivity.
  cbn [snd]. unfold rowsOf.
  destruct (member data "result") as [result|].
  - destruct (truthy (Some data) && truthy (Some result)); reflexivity.
  - rewrite andb_false_r. reflexivity.
Qed.

End QueryFacts.

(** ** Creating pages *)
Section CreateFacts.

Import HttpsClient JS Script CreateLoop.

Context {World : Type}.
Variable https_request : RequestOptions -> string -> World -> Exchange * World.
Variable JSON_parse : string -> option JSON.
Variable URL_new : string -> option URL.
Variable JSON_stringify : JSON -> string.
Variable config : Config.
Variable childrenViewType : option string.

(** The request the loop sends for a title. *)
Local Abbreviation createRequest title :=
  (CreatePages.makeRoamRequest https_request JSON_parse URL_new JSON_stringify
     config (createPageAction title childrenViewType) 30000).

Local Abbreviation loop :=
  (createPages https_request JSON_parse URL_new JSON_stringify config childrenViewType).

(** One turn of the loop. *)
Lemma createPages_cons title rest results p :
  loop (title :: rest) results p
  = let w := snd (createRequest title (net p)) in
    match fst (createRequest title (net p)) with
    | Resolves _ _ =>
        loop rest (mkResults (created results ++ [title]) (skipped results)
                             (failed results))
             (mkProcess w (console p ++ [ToStdout "."]))
    | Rejects error =>
        match classify JSON_parse error with
        | Skip =>
            loop rest (mkResults (created results) (skipped results ++ [title])
                                 (failed results))
                 (mkProcess w (console p ++ [ToStdout "s"]))
        | Fail reason =>
            loop rest (mkResults (created results) (skipped results)
                                 (failed results ++ [(title, reason)]))
                 (mkProcess w (console p ++ [ToStdout "x"]))
        end
    | Throws exn => (Async.Rejected (Uncaught exn), mkProcess w (console p))
    | Pending => (Async.Rejected Unsettled, mkProcess w (console p))
    end.
Proof.
  cbn [createPages]. unfold Async.bind at 1. unfold tryCatch.
  unfold Async.bind at 1. rewrite request_run. cbv zeta.
  destruct (fst (createRequest title (net p))) as [statusCode data|error|exn|];
    try reflexivity.
  destruct (classify JSON_parse error); reflexivity.
Qed.

(** What a run of the loop that comes to its end has done. *)
Lemma createPages_Fulfilled titles : forall results p results' p',
  loop titles results p = (Async.Fulfilled results', p') ->
  exists newlyCreated newlySkipped newlyFailed,
    created results' = created results ++ newlyCreated
    /\ skipped results' = skipped results ++ newlySkipped
    /\ failed results' = failed results ++ newlyFailed
    /\ Permutation (newlyCreated ++ newlySkipped ++ map fst newlyFailed) titles
    /\ sublist newlyCreated titles
    /\ sublist newlySkipped titles
    /\ sublist (map fst newlyFailed) titles
    /\ net p' = fold_left (fun w title => snd (createRequest title w)) titles (net p)
    /\ length (console p') = (length (console p) + length titles)%nat.
Proof.
  induction titles as [|title rest IH]; intros results p results' p' Hrun.
  - inversion Hrun; subst. exists [], [], [].
    rewrite !app_nil_r. cbn. repeat split; try constructor. lia.
  - rewrite createPages_cons in Hrun. cbv zeta in Hrun. cbn [fold_left].
    destruct (fst (createRequest title (net p))) as [statusCode data|error|exn|].
    + apply IH in Hrun as (c & s & f & Hc & Hs & Hf & Hperm & Hsc & Hss & Hsf & Hnet & Hlen).
      cbn [created skipped failed net console] in *.
      exists (title :: c), s, f. rewrite <- app_assoc in Hc.
      repeat split; try assumption.
      * cbn. now constructor.
      * now constructor.
      * now apply sublist_cons.
      * now apply sublist_cons.
      * rewrite Hlen, length_app. cbn. lia.
    + destruct (classify JSON_parse error) as [|reason].
      * apply IH in Hrun as (c & s & f & Hc & Hs & Hf & Hperm & Hsc & Hss & Hsf & Hnet & Hlen).
        cbn [created skipped failed net console] in *.
        exists c, (title :: s), f. rewrite <- app_assoc in Hs.
        repeat split; try assumption.
        -- change ((title :: s) ++ map fst f) with (title :: (s ++ map fst f)).
           rewrite <- Permutation_middle. now constructor.
        -- now apply sublist_cons.
        -- now constructor.
        -- now apply sublist_cons.
        -- rewrite Hlen, length_app. cbn. lia.
      * apply IH in Hrun as (c & s & f & Hc & Hs & Hf & Hperm & Hsc & Hss & Hsf & Hnet & Hlen).
        cbn [created skipped failed net console] in *.
        exists c, s, ((title, reason) :: f). rewrite <- app_assoc in Hf.
        repeat split; try assumption.
        -- cbn [map fst]. rewrite (app_assoc c s).
           rewrite <- Permutation_middle. rewrite <- app_assoc. now constructor.
        -- now apply sublist_cons.
        -- now apply sublist_cons.
        -- cbn [map fst]. now constructor.
        -- rewrite Hlen, length_app. cbn. lia.
    + discriminate.
    + discriminate.
Qed.

(** X9: when the loop of [main] comes to its end, every title it was given
    is in exactly one of [created], [skipped] and [failed], each of which
    keeps the sequence of the titles; and the script exits with 0 exactly
    when every title was created or skipped. *)
Theorem createPages_accounts_for_every_title titles p results p' :
  createPages https_request JSON_parse URL_new JSON_stringify config
    childrenViewType titles noResults p = (Async.Fulfilled results, p') ->
  Permutation (created results ++ skipped results ++ map fst (failed results)) titles
  /\ sublist (created results) titles
  /\ sublist (skipped results) titles
  /\ sublist (map fst (failed results)) titles
  /\ (exitCode results = 0 <->
      Permutation (created results ++ skipped results) titles).
Proof.
  intros Hrun.
  apply createPages_Fulfilled in Hrun
    as (c & s & f & Hc & Hs & Hf & Hperm & Hsc & Hss & Hsf & _).
  cbn in Hc, Hs, Hf. rewrite Hc, Hs, Hf.
  repeat split; try assumption.
  - unfold exitCode. rewrite Hf. destruct f as [|entry f]; [|discriminate].
    intros _. cbn in Hperm. now rewrite app_nil_r in Hperm.
  - intros Hcs. unfold exitCode. rewrite Hf.
    destruct f as [|entry f]; [reflexivity|].
    apply Permutation_length in Hperm, Hcs.
    rewrite !length_app in *. cbn in Hperm. lia.
Qed.


(** X11: no rejection of a request ends the loop.  It ends with its
    results, or it stops at a request, the last one sent, in one of two
    ways: an exception left a listener of that request, or the response to
    it broke off and the promise stayed pending, so that the process ended
    there, with the titles after it untouched and no summary. *)
Theorem createPages_never_rejects titles : forall results p,
  match fst (createPages https_request JSON_parse URL_new JSON_stringify config
    childrenViewType titles results p) with
  | Async.Fulfilled _ => True
  | Async.Rejected (Raised _) => False
  | Async.Rejected (Uncaught exn) =>
      exists before title after,
        titles = before ++ title :: after
        /\ net (snd (createPages https_request JSON_parse URL_new JSON_stringify config
    childrenViewType titles results p))
           = snd (createRequest title
                    (fold_left (fun w title => snd (createRequest title w))
                               before (net p)))
        /\ fst (createRequest title
                  (fold_left (fun w title => snd (createRequest title w))
                             before (net p)))
           = Throws exn
  | Async.Rejected Unsettled =>
      exists before title after,
        titles = before ++ title :: after
        /\ net (snd (createPages https_request JSON_parse URL_new JSON_stringify config
    childrenViewType titles results p))
           = snd (createRequest title
                    (fold_left (fun w title => snd (createRequest title w))
                               before (net p)))
        /\ fst (createRequest title
                  (fold_left (fun w title => snd (createRequest title w))
                             before (net p)))
           = Pending
  end.
Proof.
  induction titles as [|title rest IH]; intros results p.
  - exact I.
  - rewrite createPages_cons. cbv zeta.
    destruct (fst (createRequest title (net p)))
      as [statusCode data|error|exn|] eqn:Hcall.
    + specialize (IH (mkResults (created results ++ [title]) (skipped results)
                                (failed results))
                     (mkProcess (snd (createRequest title (net p)))
                                (console p ++ [ToStdout "."]))).
      destruct (fst (loop rest _ _)) as [|[reason|exn|]]; try assumption;
        destruct IH as (before & t & after & -> & Hnet & Hstop);
        exists (title :: before), t, after; now repeat split.
    + destruct (classify JSON_parse error) as [|reason].
      * specialize (IH (mkResults (created results) (skipped results ++ [title])
                                  (failed results))
                       (mkProcess (snd (createRequest title (net p)))
                                  (console p ++ [ToStdout "s"]))).
        destruct (fst (loop rest _ _)) as [|[r|exn|]]; try assumption;
          destruct IH as (before & t & after & -> & Hnet & Hstop);
          exists (title :: before), t, after; now repeat split.
      * specialize (IH (mkResults (created results) (skipped results)
                                  (failed results ++ [(title, reason)]))
                       (mkProcess (snd (createRequest title (net p)))
                                  (console p ++ [ToStdout "x"]))).
        destruct (fst (loop rest _ _)) as [|[r|exn|]]; try assumption;
          destruct IH as (before & t & after & -> & Hnet & Hstop);
          exists (title :: before), t, after; now repeat split.
    + exists [], title, rest. now repeat split.
    + exists [], title, rest. now repeat split.
Qed.

(** X17: [main] runs the loop on the distinct titles: when the loop comes
    to its end, every title that was given, however often, is in one of
    [created], [skipped] and [failed], and in these three together no
    title is twice. *)
Theorem createPages_each_title_once titles p results p' :
  createPages https_request JSON_parse URL_new JSON_stringify config
    childrenViewType (Set_from titles) noResults p
  = (Async.Fulfilled results, p') ->
  NoDup (created results ++ skipped results ++ map fst (failed results))
  /\ (forall title,
        title ∈ titles
        <-> title ∈ created results ++ skipped results ++ map fst (failed results)).
Proof.
  intros Hrun.
  apply createPages_Fulfilled in Hrun
    as (c & s & f & Hc & Hs & Hf & Hperm & _).
  cbn in Hc, Hs, Hf. rewrite Hc, Hs, Hf. split.
  - rewrite Hperm. apply Set_from_NoDup.
  - intros title. rewrite Hperm. symmetry. apply Set_from_elem_of.
Qed.

End CreateFacts.

(** ** Errors that mean the page exists *)
Section ClassifyFacts.

Import HttpsClient JS Script CreateLoop.

Variable JSON_parse : string -> option JSON.

Lemma prefix_app_iff (part text : string) :
  String.prefix part text = true <-> exists rest, text = part +:+ rest.
Proof.
  revert text. induction part as [|c part IH]; intros text.
  - split; [intros _; now exists text | intros _; now destruct text].
  - destruct text as [|d text]; cbn [String.prefix].
    + split; [discriminate | intros [rest H]; discriminate].
    + destruct (ascii_dec c d) as [->|Hcd].
      * rewrite IH. split; intros [rest H]; exists rest.
        -- now rewrite H.
        -- now inversion H.
      * split; [discriminate|]. intros [rest H]. inversion H. congruence.
Qed.

(** [includes] finds the part wherever it stands in the text. *)
Lemma includes_iff (text part : string) :
  includes text part = true
  <-> exists before rest, text = before +:+ part +:+ rest.
Proof.
  induction text as [|c text IH].
  - cbn [includes]. destruct (String.prefix part "") eqn:Hprefix.
    + apply prefix_app_iff in Hprefix as [rest Hrest].
      split; [intros _; now exists "", rest | reflexivity].
    + split; [discriminate|]. intros (before & rest & H).
      destruct before; [|discriminate]. 
      assert (String.prefix part "" = true) as Habs
        by (apply prefix_app_iff; now exists rest).
      congruence.
  - cbn [includes]. destruct (String.prefix part (String c text)) eqn:Hprefix.
    + apply prefix_app_iff in Hprefix as [rest Hrest].
      split; [intros _; now exists "", rest | reflexivity].
    + rewrite IH. split.
      * intros (before & rest & ->). now exists (String c before), rest.
      * intros (before & rest & H). destruct before as [|d before].
        -- assert (String.prefix part (String c text) = true) as Habs
             by (apply prefix_app_iff; now exists rest).
           congruence.
        -- inversion H. now exists before, rest.
Qed.

(** X12: a title is counted as skipped only on an answer of the service:
    a rejection with a status other than 0 and a body that parses as JSON
    and whose [message] is a string with [already exists] somewhere in it
    (or an array with that string as an element).  No timeout, no
    connection error and no body that is not JSON is taken for an existing
    page; and every such answer is. *)
Theorem classify_skips_what_already_exists (error : Rejection) :
  classify JSON_parse error = Skip
  <-> exists statusCode text errorData,
        error = HttpFailure statusCode text
        /\ statusCode <> 0
        /\ text <> ""
        /\ JSON_parse text = Some errorData
        /\ ((exists reason before rest,
               member errorData "message" = Some (JString reason)
               /\ reason = before +:+ "already exists" +:+ rest)
            \/ (exists items,
                  member errorData "message" = Some (JArray items)
                  /\ In (JString "already exists") items)).
Proof.
  split.
  - destruct error as [statusCode text|err]; [|discriminate].
    cbn [classify].
    destruct (Z.eqb_spec statusCode 0) as [|Hstatus]; [discriminate|].
    destruct (String.eqb_spec text "") as [|Htext]; [discriminate|].
    cbn [negb andb].
    destruct (JSON_parse text) as [errorData|] eqn:Hparse; [|discriminate].
    intros Hskip.
    assert (match member errorData "message" with
            | Some (JString reason) => includes reason "already exists" = true
            | Some (JArray items) =>
                existsb (fun item =>
                           match item with
                           | JString s => (s =? "already exists")%string
                           | _ => false
                           end) items = true
            | _ => False
            end) as Hmessage.
    { destruct errorData; try discriminate;
        destruct (member _ "message") as [[]|]; cbn [truthy] in Hskip;
        repeat match type of Hskip with
               | (if ?c then _ else _) = _ => destruct c eqn:?
               end; try discriminate; try assumption; try reflexivity. }
    exists statusCode, text, errorData. repeat split; try assumption.
    destruct (member errorData "message") as [[| | |reason|items|]|];
      try contradiction.
    + left. apply includes_iff in Hmessage as (before & rest & ->).
      now exists (before +:+ "already exists" +:+ rest), before, rest.
    + right. exists items. split; [reflexivity|].
      apply existsb_exists in Hmessage as (item & Hin & Hitem).
      destruct item; try discriminate.
      apply String.eqb_eq in Hitem. now subst.
  - intros (statusCode & text & errorData & -> & Hstatus & Htext & Hparse & Hmessage).
    cbn [classify].
    apply Z.eqb_neq in Hstatus. apply String.eqb_neq in Htext.
    rewrite Hstatus, Htext, Hparse. cbn [negb andb].
    destruct Hmessage as [(reason & before & rest & Hmember & ->)
                         |(items & Hmember & Hin)].
    + assert (includes (before +:+ "already exists" +:+ rest) "already exists"
              = true) as Hincludes
        by (apply includes_iff; now exists before, rest).
      assert (truthy (Some (JString (before +:+ "already exists" +:+ rest)))
              = true) as Htruthy.
      { cbn [truthy]. destruct before; [reflexivity|reflexivity]. }
      destruct errorData; try discriminate; rewrite Hmember, Htruthy, Hincludes;
        reflexivity.
    + assert (existsb (fun item =>
                         match item with
                         | JString s => (s =? "already exists")%string
                         | _ => false
                         end) items = true) as Hexists.
      { apply existsb_exists. exists (JString "already exists").
        split; [assumption | reflexivity]. }
      destruct errorData; try discriminate; rewrite Hmember; cbn [truthy];
        rewrite Hexists; reflexivity.
Qed.

End ClassifyFacts.

(** ** Writing blocks *)
Section WriteFacts.

Import HttpsClient JS Script Queries WriteBlocks.

Context {World : Type}.
Variable https_request : RequestOptions -> string -> World -> Exchange * World.
Variable JSON_parse : string -> option JSON.
Variable URL_new : string -> option URL.
Variable JSON_stringify : JSON -> string.
Variable String_first : string -> string.
Variable greaterThanZero : JSON -> bool.
Variable typeError : Error.
Variable config : Config.

Local Abbreviation blockRequest pageUid content :=
  (createBlock https_request JSON_parse URL_new JSON_stringify config pageUid content).

Local Abbreviation lookUp :=
  (queryPageUid_write https_request JSON_parse URL_new JSON_stringify
     String_first greaterThanZero typeError config).

Local Abbreviation ensure :=
  (ensurePageAndGetUid https_request JSON_parse URL_new JSON_stringify
     String_first greaterThanZero typeError config).

Lemma messageOrUnknown_not_empty error : messageOrUnknown error <> "".
Proof.
  unfold messageOrUnknown.
  destruct (String.eqb_spec (message error) ""); [discriminate | assumption].
Qed.

(** One turn of the loop. *)
Lemma writeBlocks_cons pageUid content rest results p :
  writeBlocks https_request JSON_parse URL_new JSON_stringify config pageUid
    (content :: rest) results p
  = match blockRequest pageUid content p with
    | (Async.Fulfilled _, p1) =>
        writeBlocks https_request JSON_parse URL_new JSON_stringify config pageUid
          rest (mkResults (written results ++ [content]) (failed results))
          (mkProcess (net p1) (console p1 ++ [ToStdout "."]))
    | (Async.Rejected (Raised error), p1) =>
        writeBlocks https_request JSON_parse URL_new JSON_stringify config pageUid
          rest (mkResults (written results)
                          (failed results ++ [(content, messageOrUnknown error)]))
          (mkProcess (net p1) (console p1 ++ [ToStdout "x"]))
    | (Async.Rejected (Uncaught exn), p1) => (Async.Rejected (Uncaught exn), p1)
    | (Async.Rejected Unsettled, p1) => (Async.Rejected Unsettled, p1)
    end.
Proof.
  cbn [writeBlocks]. unfold Async.bind at 1. unfold tryCatch.
  unfold Async.bind at 1.
  destruct (blockRequest pageUid content p) as [[response|[error|exn|]] p1];
    reflexivity.
Qed.

Lemma writeBlocks_Fulfilled pageUid contentLines : forall results p results' p',
  writeBlocks https_request JSON_parse URL_new JSON_stringify config pageUid
    contentLines results p = (Async.Fulfilled results', p') ->
  exists newlyWritten newlyFailed,
    written results' = written results ++ newlyWritten
    /\ failed results' = failed results ++ newlyFailed
    /\ Permutation (newlyWritten ++ map fst newlyFailed) contentLines
    /\ sublist newlyWritten contentLines
    /\ sublist (map fst newlyFailed) contentLines
    /\ Forall (fun entry => snd entry <> "") newlyFailed
    /\ net p' = fold_left (fun w content =>
                             net (snd (blockRequest pageUid content
                                         (mkProcess w []))))
                          contentLines (net p)
    /\ length (console p') = (length (console p) + length contentLines)%nat.
Proof.
  assert (forall content p,
            net (snd (blockRequest pageUid content p))
            = net (snd (blockRequest pageUid content (mkProcess (net p) [])))
            /\ console (snd (blockRequest pageUid content p)) = console p)
    as Hrequest.
  { intros content p. unfold createBlock. rewrite !request_run. now split. }
  induction contentLines as [|content rest IH]; intros results p results' p' Hrun.
  - inversion Hrun; subst. exists [], [].
    rewrite !app_nil_r. cbn. repeat split; try constructor. lia.
  - rewrite writeBlocks_cons in Hrun. cbn [fold_left].
    destruct (Hrequest content p) as [Hnet1 Hconsole1].
    destruct (blockRequest pageUid content p) as [[response|[error|exn|]] p1].
    + apply IH in Hrun as (w & f & Hw & Hf & Hperm & Hsw & Hsf & Hne & Hnet & Hlen).
      cbn [written failed net console snd] in *.
      exists (content :: w), f. rewrite <- app_assoc in Hw.
      repeat split; try assumption.
      * cbn. now constructor.
      * now constructor.
      * now apply sublist_cons.
      * now rewrite Hnet, Hnet1.
      * rewrite Hlen, length_app, Hconsole1. cbn. lia.
    + apply IH in Hrun as (w & f & Hw & Hf & Hperm & Hsw & Hsf & Hne & Hnet & Hlen).
      cbn [written failed net console snd] in *.
      exists w, ((content, messageOrUnknown error) :: f).
      rewrite <- app_assoc in Hf.
      repeat split; try assumption.
      * cbn [map fst]. rewrite <- Permutation_middle. now constructor.
      * now apply sublist_cons.
      * cbn [map fst]. now constructor.
      * constructor; [apply messageOrUnknown_not_empty | assumption].
      * now rewrite Hnet, Hnet1.
      * rewrite Hlen, length_app, Hconsole1. cbn. lia.
    + discriminate.
    + discriminate.
Qed.


(** How [ensurePageAndGetUid] runs. *)
Lemma ensurePageAndGetUid_run pageTitle p :
  ensure pageTitle p
  = match lookUp pageTitle p with
    | (Async.Fulfilled uid, p1) =>
        match whenTruthy uid with
        | Some found => (Async.Fulfilled found, p1)
        | None =>
            let p2 := mkProcess (net p1)
                        (console p1
                         ++ [ToStdout (doesNotExist pageTitle +:+ String "010" "")]) in
            match createPage https_request JSON_parse URL_new JSON_stringify
                    config pageTitle p2 with
            | (Async.Fulfilled _, p3) =>
                match lookUp pageTitle p3 with
                | (Async.Fulfilled uid', p4) =>
                    match whenTruthy uid' with
                    | Some found => (Async.Fulfilled found, p4)
                    | None =>
                        (Async.Rejected
                           (Raised (ErrorObject (failedToGetUid pageTitle))), p4)
                    end
                | (Async.Rejected abort, p4) => (Async.Rejected abort, p4)
                end
            | (Async.Rejected abort, p3) => (Async.Rejected abort, p3)
            end
        end
    | (Async.Rejected abort, p1) => (Async.Rejected abort, p1)
    end.
Proof.
  unfold ensurePageAndGetUid. unfold Async.bind at 1.
  destruct (lookUp pageTitle p) as [[uid|abort] p1]; [|reflexivity].
  destruct (whenTruthy uid) as [found|]; [reflexivity|].
  unfold Async.bind at 1. cbn [console_log stdout_write]. cbv zeta.
  unfold Async.bind at 1.
  destruct (createPage _ _ _ _ _ _ _) as [[[]|abort] p3]; [|reflexivity].
  unfold Async.bind at 1.
  destruct (lookUp pageTitle p3) as [[uid'|abort] p4]; [|reflexivity].
  destruct (whenTruthy uid'); reflexivity.
Qed.

Lemma whenTruthy_Some uid found :
  whenTruthy uid = Some found -> uid = Some found /\ truthy (Some found) = true.
Proof.
  unfold whenTruthy. destruct (truthy uid) eqn:Htruthy; [|discriminate].
  intros ->. now split.
Qed.

(** X14: when the first look-up of [ensurePageAndGetUid] finds a truthy
    uid, that uid is returned and the process is left as the look-up left
    it: no create-page request is sent and nothing is printed. *)
Theorem ensurePageAndGetUid_existing_page pageTitle p uid p1 :
  queryPageUid_write https_request JSON_parse URL_new JSON_stringify
    String_first greaterThanZero typeError config pageTitle p
  = (Async.Fulfilled (Some uid), p1) ->
  truthy (Some uid) = true ->
  ensurePageAndGetUid https_request JSON_parse URL_new JSON_stringify
    String_first greaterThanZero typeError config pageTitle p
  = (Async.Fulfilled uid, p1).
Proof.
  intros Hlook Htruthy. rewrite ensurePageAndGetUid_run, Hlook.
  unfold whenTruthy. now rewrite Htruthy.
Qed.

(** X15: a uid that [ensurePageAndGetUid] returns is truthy (not [null],
    not an empty string), and it is the uid a look-up found: the first
    one, or the one after the page was created. *)
Theorem ensurePageAndGetUid_returns_a_found_uid pageTitle p uid p' :
  ensurePageAndGetUid https_request JSON_parse URL_new JSON_stringify
    String_first greaterThanZero typeError config pageTitle p
  = (Async.Fulfilled uid, p') ->
  truthy (Some uid) = true
  /\ exists p0,
       queryPageUid_write https_request JSON_parse URL_new JSON_stringify
         String_first greaterThanZero typeError config pageTitle p0
       = (Async.Fulfilled (Some uid), p').
Proof.
  rewrite ensurePageAndGetUid_run.
  destruct (lookUp pageTitle p) as [[uid1|abort] p1] eqn:Hlook1; [|discriminate].
  destruct (whenTruthy uid1) as [found|] eqn:Hfound.
  - intros H. inversion H; subst.
    apply whenTruthy_Some in Hfound as [-> Htruthy].
    split; [assumption | now exists p].
  - cbv zeta.
    destruct (createPage _ _ _ _ _ _ _) as [[[]|abort] p3]; [|discriminate].
    destruct (lookUp pageTitle p3) as [[uid2|abort] p4] eqn:Hlook2; [|discriminate].
    destruct (whenTruthy uid2) as [found|] eqn:Hfound2; [|discriminate].
    intros H. inversion H; subst.
    apply whenTruthy_Some in Hfound2 as [-> Htruthy].
    split; [assumption | now exists p3].
Qed.

(** X16: when the first look-up finds nothing, [ensurePageAndGetUid]
    prints the line [  Page "title" does not exist, creating it...] and
    sends the create-page request.  If that request does not resolve, the
    call ends as the request did and no second look-up is made.  If it
    resolves and the second look-up finds nothing either, the call rejects
    with the error [Failed to get UID for page "title" after creation]. *)
Theorem ensurePageAndGetUid_missing_page pageTitle p uid p1 :
  queryPageUid_write https_request JSON_parse URL_new JSON_stringify
    String_first greaterThanZero typeError config pageTitle p
  = (Async.Fulfilled uid, p1) ->
  truthy uid = false ->
  (forall abort p3,
     createPage https_request JSON_parse URL_new JSON_stringify config pageTitle
       (mkProcess (net p1)
          (console p1 ++ [ToStdout (("  Page " +:+ String "034" pageTitle
                        +:+ String "034" " does not exist, creating it...")
                       +:+ String "010" "")]))
     = (Async.Rejected abort, p3) ->
     ensurePageAndGetUid https_request JSON_parse URL_new JSON_stringify
       String_first greaterThanZero typeError config pageTitle p
     = (Async.Rejected abort, p3))
  /\ (forall p3 uid' p4,
        createPage https_request JSON_parse URL_new JSON_stringify config pageTitle
          (mkProcess (net p1)
             (console p1 ++ [ToStdout (("  Page " +:+ String "034" pageTitle
                        +:+ String "034" " does not exist, creating it...")
                       +:+ String "010" "")]))
        = (Async.Fulfilled tt, p3) ->
        queryPageUid_write https_request JSON_parse URL_new JSON_stringify
          String_first greaterThanZero typeError config pageTitle p3
        = (Async.Fulfilled uid', p4) ->
        truthy uid' = false ->
        ensurePageAndGetUid https_request JSON_parse URL_new JSON_stringify
          String_first greaterThanZero typeError config pageTitle p
        = (Async.Rejected (Raised (ErrorObject
                     (mkError ("Failed to get UID for page "
                               +:+ String "034" pageTitle
                               +:+ String "034" " after creation")))), p4)).
Proof.
  intros Hlook Hfalsy.
  assert (whenTruthy uid = None) as Hnone
    by (unfold whenTruthy; now rewrite Hfalsy).
  split.
  - intros abort p3 Hcreate.
    rewrite ensurePageAndGetUid_run, Hlook, Hnone. cbv zeta.
    unfold doesNotExist. now rewrite Hcreate.
  - intros p3 uid' p4 Hcreate Hlook' Hfalsy'.
    rewrite ensurePageAndGetUid_run, Hlook, Hnone. cbv zeta.
    unfold doesNotExist, failedToGetUid.
    rewrite Hcreate, Hlook'. unfold whenTruthy. now rewrite Hfalsy'.
Qed.

End WriteFacts.

(** ** What the request helper never does *)
Section ClientInversion.

Import HttpsClient.

Context {World : Type}.
Variable https_request : RequestOptions -> string -> World -> Exchange * World.
Variable JSON_parse : string -> option JSON.
Variable URL_new : string -> option URL.

Lemma onEnd_Resolves res body status data :
  onEnd JSON_parse res body = Resolves status data ->
  status = 200 /\ statusCode res = 200
  /\ ((body = "" /\ data = JObject [])
      \/ (body <> "" /\ JSON_parse body = Some data)).
Proof.
  unfold onEnd. destruct (Z.eqb_spec (statusCode res) 200) as [Hstatus|]; [|discriminate].
  destruct (String.eqb_spec body "") as [->|Hbody].
  - intros H. inversion H; subst. repeat split; try assumption. now left.
  - destruct (JSON_parse body) as [parsed|] eqn:Hparse; [|discriminate].
    intros H. inversion H; subst. repeat split; try assumption. now right.
Qed.

Lemma onEnd_HttpFailure res body status text :
  onEnd JSON_parse res body = Rejects (HttpFailure status text) ->
  status <> 200 /\ statusCode res = status /\ text = body.
Proof.
  unfold onEnd. destruct (Z.eqb_spec (statusCode res) 200) as [|Hstatus].
  - destruct (body =? "")%string; [discriminate|].
    destruct (JSON_parse body); discriminate.
  - intros H. inversion H; subst. now repeat split.
Qed.

Lemma onFailure_ErrorObject f : exists err, onFailure f = Rejects (ErrorObject err).
Proof. destruct f as [err|]; eexists; reflexivity. Qed.

(** How a call can end: by the listeners of its final response (or by
    none of them, when that response breaks off), or by a request that got
    no response, or by a redirect whose [Location] is no URL. *)
Lemma makeHttpsRequest_cases opts payload budget w :
  (exists res chunks ending w',
      FinalResponse https_request URL_new opts payload budget w res chunks ending w'
      /\ makeHttpsRequest https_request JSON_parse URL_new opts payload budget w
         = (match ending with
            | EndEvent => onEnd JSON_parse res (accumulate chunks)
            | Broken f => onFailure f
            | Aborted => Pending
            end, w'))
  \/ (exists f w',
        makeHttpsRequest https_request JSON_parse URL_new opts payload budget w
        = (onFailure f, w'))
  \/ (exists exn w',
        makeHttpsRequest https_request JSON_parse URL_new opts payload budget w
        = (Throws exn, w')).
Proof.
  unfold makeHttpsRequest.
  destruct (https_request opts payload w) as [[f|res chunks ending] w1] eqn:Hreq.
  - right. left. now exists f, w1.
  - destruct ((statusCode res =? 301) || (statusCode res =? 302)
              || (statusCode res =? 308)) eqn:Hstatus.
    + destruct (locationURL URL_new res) as [exn|url] eqn:Hurl.
      * right. right. now exists exn, w1.
      * destruct (https_request (redirectOptions url opts budget) payload w1)
          as [[f|res2 chunks2 ending2] w2] eqn:Hreq2.
        -- right. left. now exists f, w2.
        -- left. exists res2, chunks2, ending2, w2. split.
           ++ eapply final_redirected; eauto.
           ++ now destruct ending2.
    + left. exists res, chunks, ending, w1. split.
      * now apply final_direct.
      * now destruct ending.
Qed.

(** X18: a call resolves only on a final response with status 200 that
    came to its end, and then with the status 200 and with the empty
    object for an empty body or what [JSON.parse] made of the body: never
    on another status, never with a body that did not parse. *)
Theorem makeHttpsRequest_resolves_only_on_200 opts payload budget w status data w' :
  makeHttpsRequest https_request JSON_parse URL_new opts payload budget w
  = (Resolves status data, w') ->
  status = 200
  /\ exists res chunks,
       FinalResponse https_request URL_new opts payload budget w res chunks EndEvent w'
       /\ statusCode res = 200
       /\ ((accumulate chunks = "" /\ data = JObject [])
           \/ (accumulate chunks <> "" /\ JSON_parse (accumulate chunks) = Some data)).
Proof.
  intros Hcall.
  destruct (makeHttpsRequest_cases opts payload budget w)
    as [(res & chunks & ending & w1 & Hfinal & Hrun)
       |[(f & w1 & Hrun)|(exn & w1 & Hrun)]];
    rewrite Hrun in Hcall.
  - destruct ending as [|f|].
    + inversion Hcall as [[Hend Hw]]. subst w1.
      apply onEnd_Resolves in Hend as (-> & Hstatus & Hbody).
      split; [reflexivity|]. now exists res, chunks.
    + destruct f; discriminate.
    + discriminate.
  - destruct f; discriminate.
  - discriminate.
Qed.

(** X19: a call rejects with a status code only on a final response that
    came to its end with a status other than 200, and the message is its
    body; a timeout or a connection error is never reported with a status
    code. *)
Theorem makeHttpsRequest_status_only_from_response opts payload budget w
    status text w' :
  makeHttpsRequest https_request JSON_parse URL_new opts payload budget w
  = (Rejects (HttpFailure status text), w') ->
  status <> 200
  /\ exists res chunks,
       FinalResponse https_request URL_new opts payload budget w res chunks EndEvent w'
       /\ statusCode res = status
       /\ text = accumulate chunks.
Proof.
  intros Hcall.
  destruct (makeHttpsRequest_cases opts payload budget w)
    as [(res & chunks & ending & w1 & Hfinal & Hrun)
       |[(f & w1 & Hrun)|(exn & w1 & Hrun)]];
    rewrite Hrun in Hcall.
  - destruct ending as [|f|].
    + inversion Hcall as [[Hend Hw]]. subst w1.
      apply onEnd_HttpFailure in Hend as (Hstatus & Hres & ->).
      split; [assumption|]. now exists res, chunks.
    + destruct f; discriminate.
    + discriminate.
  - destruct f; discriminate.
  - discriminate.
Qed.

End ClientInversion.

(* ===================================================================== *)
(** * Part V: the scripts on example worlds                               *)
(* ===================================================================== *)

Section ScriptRuns.

Import HttpsClient ReadContent ReadOutput JS Script Queries Examples Tapes.

(** The page of [outOfOrder], read to depth 2 and printed. *)
Example buildBlockTree_twoLevels :
  buildBlockTree (graphQuery outOfOrder) config "page" 0 2 []
  = (Fulfilled outOfOrderTree, ["page"; "a"; "b"]).
Proof. vm_compute. reflexivity. Qed.

Lemma fetched_tree_indentation_runs :
  lines (formatBlockTree outOfOrderTree 0)
  = [ "- first"; "  - x"; "  - y"; "  - z"; "- second"; "" ]
  /\ Forall (fun line => line = "" \/ Z.of_nat (indentation line) <= 2 * (2 - 1))
            (lines (formatBlockTree outOfOrderTree 0)).
Proof.
  exact (fetched_tree_indentation (graphQuery outOfOrder) config "page" 2 []
           outOfOrderTree _ ltac:(discriminate) buildBlockTree_twoLevels
           ltac:(repeat constructor)).
Defined.

Example formatBlockTree_outOfOrder :
  formatBlockTree outOfOrderTree 0
  = "- first" +:+ newline +:+ "  - x" +:+ newline +:+ "  - y" +:+ newline
    +:+ "  - z" +:+ newline +:+ "- second" +:+ newline.
Proof. reflexivity. Qed.

Example Set_from_titles : Set_from ["a"; "b"; "a"; "c"; "b"] = ["a"; "b"; "c"].
Proof. reflexivity. Qed.

Example sortRecent_rows :
  sortRecent [("a", Some 5); ("b", None); ("c", Some 9); ("d", Some 0); ("e", Some 5)]
  = [("c", Some 9); ("a", Some 5); ("e", Some 5); ("b", None); ("d", Some 0)].
Proof. reflexivity. Qed.

(** A query answered with [{"result":[["uid-1"]]}]. *)
Lemma runQuery_never_falsy_runs :
  fst (runQuery play Reference.JSON_parse Reference.URL_new Tapes.JSON_stringify
         config "[:find ?uid]" None (start [answer 200 foundBody]))
  = Async.Fulfilled (JArray [JArray [JString "uid-1"]])
  /\ truthy (Some (JArray [JArray [JString "uid-1"]])) = true.
Proof.
  assert (runQuery play Reference.JSON_parse Reference.URL_new Tapes.JSON_stringify
            config "[:find ?uid]" None (start [answer 200 foundBody])
          = (Async.Fulfilled (JArray [JArray [JString "uid-1"]]),
             snd (runQuery play Reference.JSON_parse Reference.URL_new
                    Tapes.JSON_stringify config "[:find ?uid]" None
                    (start [answer 200 foundBody])))) as Hrun
    by (vm_compute; reflexivity).
  split; [now rewrite Hrun|].
  exact (runQuery_never_falsy _ _ _ _ _ _ _ _ _ _ Hrun).
Defined.

(** A query answered with status 200 and no body, and one answered with
    status 500. *)
Lemma runQuery_final_response_runs :
  fst (runQuery play Reference.JSON_parse Reference.URL_new Tapes.JSON_stringify
         config "[:find ?uid]" None (start [answer 200 ""]))
  = Async.Fulfilled (JArray [])
  /\ fst (runQuery play Reference.JSON_parse Reference.URL_new Tapes.JSON_stringify
            config "[:find ?uid]" None (start [answer 500 "boom"]))
     = Async.Rejected (Raised (HttpFailure 500 "boom")).
Proof.
  split.
  - rewrite (proj1 (runQuery_final_response play Reference.JSON_parse
                      Reference.URL_new Tapes.JSON_stringify config "[:find ?uid]"
                      None (start [answer 200 ""])
                      (mkIncomingMessage 200 None) [""] _
                      ltac:(now apply final_direct)) eq_refl eq_refl).
    reflexivity.
  - rewrite (proj2 (proj2 (runQuery_final_response play Reference.JSON_parse
                             Reference.URL_new Tapes.JSON_stringify config
                             "[:find ?uid]" None (start [answer 500 "boom"])
                             (mkIncomingMessage 500 None) ["boom"] _
                             ltac:(now apply final_direct)))
                    ltac:(discriminate)).
    reflexivity.
Defined.

(** Three titles against [threeAnswers]. *)
Example createPages_threeTitles :
  CreateLoop.createPages play Reference.JSON_parse Reference.URL_new Tapes.JSON_stringify
    config None ["A"; "B"; "C"] CreateLoop.noResults (start threeAnswers)
  = (Async.Fulfilled threeTitles,
     snd (CreateLoop.createPages play Reference.JSON_parse Reference.URL_new
            Tapes.JSON_stringify config None ["A"; "B"; "C"] CreateLoop.noResults
            (start threeAnswers))).
Proof. vm_compute. reflexivity. Qed.

Lemma createPages_accounts_for_every_title_runs :
  Permutation (CreateLoop.created threeTitles ++ CreateLoop.skipped threeTitles
               ++ map fst (CreateLoop.failed threeTitles)) ["A"; "B"; "C"]
  /\ CreateLoop.exitCode threeTitles = 1.
Proof.
  split; [|reflexivity].
  exact (proj1 (createPages_accounts_for_every_title _ _ _ _ _ _ _ _ _ _
                  createPages_threeTitles)).
Defined.


(** Two lines against [twoAnswers], below the block [uid-1]. *)
Example writeBlocks_twoLines :
  WriteBlocks.writeBlocks play Reference.JSON_parse Reference.URL_new
    Tapes.JSON_stringify config (JString "uid-1") ["first"; "second"]
    WriteBlocks.noResults (start twoAnswers)
  = (Async.Fulfilled twoLines,
     snd (WriteBlocks.writeBlocks play Reference.JSON_parse Reference.URL_new
            Tapes.JSON_stringify config (JString "uid-1") ["first"; "second"]
            WriteBlocks.noResults (start twoAnswers))).
Proof. vm_compute. reflexivity. Qed.


(** The page is found by the first look-up. *)
Example queryPageUid_found :
  queryPageUid_write play Reference.JSON_parse Reference.URL_new
    Tapes.JSON_stringify Tapes.String_first Tapes.greaterThanZero Tapes.typeError
    config "Project" (start [answer 200 foundBody])
  = (Async.Fulfilled (Some (JString "uid-1")),
     snd (queryPageUid_write play Reference.JSON_parse Reference.URL_new
            Tapes.JSON_stringify Tapes.String_first Tapes.greaterThanZero
            Tapes.typeError config "Project" (start [answer 200 foundBody]))).
Proof. vm_compute. reflexivity. Qed.

Lemma ensurePageAndGetUid_existing_page_runs :
  fst (WriteBlocks.ensurePageAndGetUid play Reference.JSON_parse Reference.URL_new
         Tapes.JSON_stringify Tapes.String_first Tapes.greaterThanZero
         Tapes.typeError config "Project" (start [answer 200 foundBody]))
  = Async.Fulfilled (JString "uid-1")
  /\ length (noted (net (snd (WriteBlocks.ensurePageAndGetUid play
                                Reference.JSON_parse Reference.URL_new
                                Tapes.JSON_stringify Tapes.String_first
                                Tapes.greaterThanZero Tapes.typeError config
                                "Project" (start [answer 200 foundBody])))))
     = 1%nat.
Proof.
  rewrite (ensurePageAndGetUid_existing_page _ _ _ _ _ _ _ _ _ _ _ _
             queryPageUid_found eq_refl).
  split; [reflexivity | vm_compute; reflexivity].
Defined.

(** The page is missing, is created, and is found by the second look-up. *)
Example ensurePageAndGetUid_created :
  WriteBlocks.ensurePageAndGetUid play Reference.JSON_parse Reference.URL_new
    Tapes.JSON_stringify Tapes.String_first Tapes.greaterThanZero Tapes.typeError
    config "Project"
    (start [answer 200 notFoundBody; answer 200 ""; answer 200 foundBody])
  = (Async.Fulfilled (JString "uid-1"),
     snd (WriteBlocks.ensurePageAndGetUid play Reference.JSON_parse
            Reference.URL_new Tapes.JSON_stringify Tapes.String_first
            Tapes.greaterThanZero Tapes.typeError config "Project"
            (start [answer 200 notFoundBody; answer 200 ""; answer 200 foundBody]))).
Proof. vm_compute. reflexivity. Qed.

Lemma ensurePageAndGetUid_returns_a_found_uid_runs :
  truthy (Some (JString "uid-1")) = true
  /\ map fst (noted (net (snd (WriteBlocks.ensurePageAndGetUid play
                                 Reference.JSON_parse Reference.URL_new
                                 Tapes.JSON_stringify Tapes.String_first
                                 Tapes.greaterThanZero Tapes.typeError config
                                 "Project"
                                 (start [answer 200 notFoundBody; answer 200 "";
                                         answer 200 foundBody])))))
     = [ "/api/graph/my-graph/q"; "/api/graph/my-graph/write";
         "/api/graph/my-graph/q" ].
Proof.
  split.
  - exact (proj1 (ensurePageAndGetUid_returns_a_found_uid _ _ _ _ _ _ _ _ _ _ _ _
                    ensurePageAndGetUid_created)).
  - vm_compute. reflexivity.
Defined.

(** The page is missing and the create request is refused; and the page
    is missing, is created, and is still not found. *)
Example queryPageUid_not_found :
  queryPageUid_write play Reference.JSON_parse Reference.URL_new
    Tapes.JSON_stringify Tapes.String_first Tapes.greaterThanZero Tapes.typeError
    config "Project" (start [answer 200 notFoundBody; answer 403 "Forbidden"])
  = (Async.Fulfilled (Some JNull),
     snd (queryPageUid_write play Reference.JSON_parse Reference.URL_new
            Tapes.JSON_stringify Tapes.String_first Tapes.greaterThanZero
            Tapes.typeError config "Project"
            (start [answer 200 notFoundBody; answer 403 "Forbidden"]))).
Proof. vm_compute. reflexivity. Qed.

Example queryPageUid_not_found_twice :
  queryPageUid_write play Reference.JSON_parse Reference.URL_new
    Tapes.JSON_stringify Tapes.String_first Tapes.greaterThanZero Tapes.typeError
    config "Project"
    (start [answer 200 notFoundBody; answer 200 ""; answer 200 notFoundBody])
  = (Async.Fulfilled (Some JNull),
     snd (queryPageUid_write play Reference.JSON_parse Reference.URL_new
            Tapes.JSON_stringify Tapes.String_first Tapes.greaterThanZero
            Tapes.typeError config "Project"
            (start [answer 200 notFoundBody; answer 200 ""; answer 200 notFoundBody]))).
Proof. vm_compute. reflexivity. Qed.

(** The page is not found and may not be created: the line is printed and
    the 403 is passed on.  The page is not found, created, and still not
    found: the call rejects with its own error. *)
Lemma ensurePageAndGetUid_missing_page_runs :
  fst (WriteBlocks.ensurePageAndGetUid play Reference.JSON_parse Reference.URL_new
         Tapes.JSON_stringify Tapes.String_first Tapes.greaterThanZero
         Tapes.typeError config "Project"
         (start [answer 200 notFoundBody; answer 403 "Forbidden"]))
  = Async.Rejected (Raised (HttpFailure 403 "Forbidden"))
  /\ console
       (snd (WriteBlocks.ensurePageAndGetUid play Reference.JSON_parse
               Reference.URL_new Tapes.JSON_stringify Tapes.String_first
               Tapes.greaterThanZero Tapes.typeError config "Project"
               (start [answer 200 notFoundBody; answer 403 "Forbidden"])))
     = [ ToStdout ("  Page " +:+ q +:+ "Project" +:+ q
                   +:+ " does not exist, creating it..." +:+ String "010" "") ]
  /\ fst (WriteBlocks.ensurePageAndGetUid play Reference.JSON_parse Reference.URL_new
            Tapes.JSON_stringify Tapes.String_first Tapes.greaterThanZero
            Tapes.typeError config "Project"
            (start [answer 200 notFoundBody; answer 200 ""; answer 200 notFoundBody]))
     = Async.Rejected
         (Raised (ErrorObject
                    (mkError ("Failed to get UID for page " +:+ q +:+ "Project" +:+ q
                              +:+ " after creation")))).
Proof.
  destruct (ensurePageAndGetUid_missing_page _ _ _ _ _ _ _ _ _ _ _ _
              queryPageUid_not_found eq_refl) as [Hrefused _].
  destruct (ensurePageAndGetUid_missing_page _ _ _ _ _ _ _ _ _ _ _ _
              queryPageUid_not_found_twice eq_refl) as [_ Hmissing].
  split; [|split].
  - erewrite Hrefused by (vm_compute; reflexivity). reflexivity.
  - erewrite Hrefused by (vm_compute; reflexivity). reflexivity.
  - erewrite Hmissing by (vm_compute; reflexivity). reflexivity.
Defined.

(** Three titles, and the response to the second breaks off after its
    first chunk: the first title is marked, and the process ends at the
    second request; the third title is never sent. *)
Example createPages_brokenOff :
  fst (CreateLoop.createPages play Reference.JSON_parse Reference.URL_new
         Tapes.JSON_stringify config None ["A"; "B"; "C"] CreateLoop.noResults
         (start [ answer 200 "";
                  Response (mkIncomingMessage 200 None) ["{"] Aborted;
                  answer 200 "" ]))
  = Async.Rejected Unsettled
  /\ console
       (snd (CreateLoop.createPages play Reference.JSON_parse Reference.URL_new
               Tapes.JSON_stringify config None ["A"; "B"; "C"] CreateLoop.noResults
               (start [ answer 200 "";
                        Response (mkIncomingMessage 200 None) ["{"] Aborted;
                        answer 200 "" ])))
     = [ ToStdout "." ]
  /\ pending
       (net (snd (CreateLoop.createPages play Reference.JSON_parse Reference.URL_new
                    Tapes.JSON_stringify config None ["A"; "B"; "C"]
                    CreateLoop.noResults
                    (start [ answer 200 "";
                             Response (mkIncomingMessage 200 None) ["{"] Aborted;
                             answer 200 "" ]))))
     = [ answer 200 "" ].
Proof. repeat split; vm_compute; reflexivity. Qed.

(** The titles A, B, A, C are worked on as A, B, C. *)
Lemma createPages_each_title_once_runs :
  Set_from ["A"; "B"; "A"; "C"] = ["A"; "B"; "C"]
  /\ NoDup (CreateLoop.created threeTitles ++ CreateLoop.skipped threeTitles
            ++ map fst (CreateLoop.failed threeTitles)).
Proof.
  split; [reflexivity|].
  exact (proj1 (createPages_each_title_once play Reference.JSON_parse
                  Reference.URL_new Tapes.JSON_stringify config None
                  ["A"; "B"; "A"; "C"] (start threeAnswers) threeTitles _
                  createPages_threeTitles)).
Defined.

(** The redirect of [movedOnce] resolves with status 200; the second
    redirect of [movedTwice] is rejected with its status 301. *)
Example makeHttpsRequest_movedOnce :
  makeHttpsRequest (network movedOnce) Reference.JSON_parse Reference.URL_new
    (queryOptions payload) payload 30000 startOfDay
  = (Resolves 200 (JObject [("result", JArray [])]),
     snd (makeHttpsRequest (network movedOnce) Reference.JSON_parse
            Reference.URL_new (queryOptions payload) payload 30000 startOfDay)).
Proof. vm_compute. reflexivity. Qed.

Lemma makeHttpsRequest_resolves_only_on_200_runs :
  200 = 200
  /\ exists res chunks,
       FinalResponse (network movedOnce) Reference.URL_new (queryOptions payload)
         payload 30000 startOfDay res chunks EndEvent
         (snd (makeHttpsRequest (network movedOnce) Reference.JSON_parse
                 Reference.URL_new (queryOptions payload) payload 30000 startOfDay))
       /\ statusCode res = 200
       /\ ((accumulate chunks = "" /\ JObject [("result", JArray [])] = JObject [])
           \/ (accumulate chunks <> ""
               /\ Reference.JSON_parse (accumulate chunks)
                  = Some (JObject [("result", JArray [])]))).
Proof.
  exact (makeHttpsRequest_resolves_only_on_200 _ _ _ _ _ _ _ _ _ _
           makeHttpsRequest_movedOnce).
Defined.

Example makeHttpsRequest_movedTwice :
  makeHttpsRequest (network movedTwice) Reference.JSON_parse Reference.URL_new
    (queryOptions payload) payload 30000 startOfDay
  = (Rejects (HttpFailure 301 "Moved Permanently"),
     snd (makeHttpsRequest (network movedTwice) Reference.JSON_parse
            Reference.URL_new (queryOptions payload) payload 30000 startOfDay)).
Proof. vm_compute. reflexivity. Qed.

Lemma makeHttpsRequest_status_only_from_response_runs :
  301 <> 200
  /\ exists res chunks,
       FinalResponse (network movedTwice) Reference.URL_new (queryOptions payload)
         payload 30000 startOfDay res chunks EndEvent
         (snd (makeHttpsRequest (network movedTwice) Reference.JSON_parse
                 Reference.URL_new (queryOptions payload) payload 30000 startOfDay))
       /\ statusCode res = 301
       /\ "Moved Permanently" = accumulate chunks.
Proof.
  exact (makeHttpsRequest_status_only_from_response _ _ _ _ _ _ _ _ _ _
           makeHttpsRequest_movedTwice).
Defined.

End ScriptRuns.
